(** * Heimer: the application driver and its collaborators

    A shallow embedding of [src/application.cpp] (the class [Application]:
    command-line parsing and the effect that is run for every workflow
    state) together with the interface of [Mediator] declared in
    [src/mediator.hpp].

    Layout: data model, the command line, the driver, the collaborators
    whose bodies are not part of the two source files, then the theorems. *)

From Stdlib Require Import String Ascii ZArith List Lia Bool.
From stdpp Require Import base tactics option list strings gmap.
Import ListNotations.

Local Open Scope string_scope.
Local Open Scope list_scope.
Local Open Scope Z_scope.

(** ** Strings as [QString] *)

Module QStr.

(** [QString::isEmpty]. *)
Definition isEmpty (s : string) : bool :=
  match s with
  | EmptyString => true
  | String _ _ => false
  end.

(** [QString::endsWith(const QString &)], case sensitive: [suffix] is
    compared with the last [length suffix] characters of [s]. *)
Definition endsWith (s suffix : string) : bool :=
  let n := String.length s in
  let k := String.length suffix in
  (k <=? n)%nat && String.eqb (substring (n - k) k s) suffix.

(** The end-of-line written by [std::endl]. *)
Definition endl : string := String (ascii_of_nat 10) EmptyString.

End QStr.

(** ** Constants of [config.hpp] and of the build

    [Config::FILE_EXTENSION], [Config::COPYRIGHT],
    [Config::TRANSLATIONS_RESOURCE_BASE] and the macro [VERSION] are declared
    outside the two source files; the driver takes them as a parameter. *)
Record Config : Type := {
  FILE_EXTENSION : string;
  COPYRIGHT : string;
  TRANSLATIONS_RESOURCE_BASE : string;
  VERSION : string
}.

(** What the platform answers during start-up: [QLocale::system().name()]
    and whether [QTranslator::load] finds a resource. *)
Record Platform : Type := {
  systemLocaleName : string;
  translatorLoad : string -> bool
}.

(** ** Logging and console output *)

Inductive LogLevel : Type := LogDebug | LogInfo | LogWarning | LogError.

Inductive Console : Type :=
| Stdout (text : string)
| Log (level : LogLevel) (text : string).

(** ** The command line: [printHelp], [initTranslations], [parseArgs] *)

Module CommandLine.

(** [UserException(msg)] of [userexception.hpp]. *)
Record UserException : Type := { what : string }.

(** The exception that [parseArgs] throws. *)
Definition helpException : UserException := {| what := "Exit due to help." |}.

(** How a call ends. [OutOfBounds] is [operator[]] past the end of the
    vector (undefined behaviour in the source); [OutOfFuel] belongs to the
    model only: the loop bound given to the [for] statement was used up. *)
Inductive Outcome (A : Type) : Type :=
| Returned (a : A)
| Thrown (out : list Console) (e : UserException)
| OutOfBounds
| OutOfFuel.
Arguments Returned {A} a.
Arguments Thrown {A} out e.
Arguments OutOfBounds {A}.
Arguments OutOfFuel {A}.

(** [unsigned int] arithmetic. *)
Definition UINT_MODULUS : Z := 2 ^ 32.
Definition INT_MAX : Z := 2 ^ 31 - 1.
Definition wrap (z : Z) : Z := z mod UINT_MODULUS.

(** [args.size()] and [args[i]]. *)
Definition size (args : list string) : Z := Z.of_nat (length args).
Definition at_ (args : list string) (i : Z) : option string :=
  if i <? 0 then None else args !! Z.to_nat i.

(** The locals and the member that the loop of [parseArgs] assigns. *)
Record Scan : Type := {
  lang : string;
  m_mindMapFile : string
}.

(** Before the loop: [lang] is empty and so is the member
    [m_mindMapFile]. *)
Definition initial : Scan := {| lang := EmptyString; m_mindMapFile := EmptyString |}.

Definition isHelp (a : string) : bool :=
  String.eqb a "-h" || String.eqb a "--help".

Section WithConfig.
Context (cfg : Config) (sys : Platform).

Definition printHelp : list Console :=
  [ Stdout QStr.endl; Stdout "Heimer version "; Stdout (VERSION cfg); Stdout QStr.endl;
    Stdout (COPYRIGHT cfg); Stdout QStr.endl; Stdout QStr.endl;
    Stdout "Usage: heimer [options] [mindMapFile]"; Stdout QStr.endl; Stdout QStr.endl;
    Stdout "Options:"; Stdout QStr.endl;
    Stdout "--help        Show this help."; Stdout QStr.endl;
    Stdout "--lang [lang] Force language: fi."; Stdout QStr.endl;
    Stdout QStr.endl ].

(** The translator after [initTranslations]: the language whose
    resource was installed, if any, and what was logged. *)
Definition initTranslations (lang : string) : option string * list Console :=
  let lang := if String.eqb lang EmptyString then systemLocaleName sys else lang in
  if translatorLoad sys (TRANSLATIONS_RESOURCE_BASE cfg +:+ lang)
  then (Some lang, [Log LogInfo ("Loaded translations for " +:+ lang)])
  else (None, [Log LogWarning ("Failed to load translations for " +:+ lang)]).

(** The [for] loop of [parseArgs], from index [i] on. Every iteration
    moves [i] forward, so [length args] iterations are enough when the
    index cannot wrap around. *)
Fixpoint parseLoop (fuel : nat) (args : list string) (i : Z) (st : Scan) : Outcome Scan :=
  if negb (i <? size args) then Returned st
  else
    match fuel with
    | O => OutOfFuel
    | S fuel' =>
        match at_ args i with
        | None => OutOfBounds
        | Some a =>
            if isHelp a then Thrown printHelp helpException
            else if String.eqb a "--lang" && (wrap (i + i) <? size args) then
              match at_ args (wrap (i + 1)) with
              | None => OutOfBounds
              | Some code =>
                  let i' := wrap (i + 1) in
                  parseLoop fuel' args (wrap (i' + 1))
                    {| lang := code; m_mindMapFile := m_mindMapFile st |}
              end
            else
              parseLoop fuel' args (wrap (i + 1))
                {| lang := lang st; m_mindMapFile := a |}
        end
    end.

(** What [Application] holds once [parseArgs] has returned. *)
Record Parsed : Type := {
  mindMapFile : string;
  requestedLang : string;
  translation : option string;
  console : list Console
}.

(** [Application::parseArgs]; [args] is the vector built from
    [argv, argv + argc] and [m_mindMapFile] starts out empty. *)
Definition parseArgs (args : list string) : Outcome Parsed :=
  match parseLoop (length args) args 1 initial with
  | Returned st =>
      let '(tr, out) := initTranslations (lang st) in
      Returned {| mindMapFile := m_mindMapFile st;
                  requestedLang := lang st;
                  translation := tr;
                  console := out |}
  | Thrown out e => Thrown out e
  | OutOfBounds => OutOfBounds
  | OutOfFuel => OutOfFuel
  end.

(** The constructor schedules [openArgMindMap] when a file was named:
    the file that is opened at start-up. *)
Definition startupFile (p : Parsed) : option string :=
  if QStr.isEmpty (mindMapFile p) then None else Some (mindMapFile p).

(** The same scan written over the arguments that are still to be
    read, [l] being [args] from index [i] on and [n] the size of
    [args]; used to reason about [parseLoop]. *)
Fixpoint scanFrom (n i : Z) (l : list string) (st : Scan) : Outcome Scan :=
  match l with
  | [] => Returned st
  | a :: rest =>
      if isHelp a then Thrown printHelp helpException
      else if String.eqb a "--lang" && (i + i <? n) then
        match rest with
        | code :: rest' =>
            scanFrom n (i + 2) rest' {| lang := code; m_mindMapFile := m_mindMapFile st |}
        | [] => OutOfBounds
        end
      else scanFrom n (i + 1) rest {| lang := lang st; m_mindMapFile := a |}
  end.

End WithConfig.

(** The arguments that the loop assigns to [m_mindMapFile], in order:
    those it reaches and takes neither for a help option nor for a [--lang]
    that it accepts (whose value it skips). This is the loop's own view,
    with the guard as it is written: a [--lang] that the guard turns down
    and the value after it are in the list. [n] is the size of the whole
    vector and [i] the index of the head of [l]. *)
Fixpoint positionalsFrom (n i : Z) (l : list string) : list string :=
  match l with
  | [] => []
  | a :: rest =>
      if isHelp a then []
      else if String.eqb a "--lang" && (i + i <? n) then
        match rest with
        | _ :: rest' => positionalsFrom n (i + 2) rest'
        | [] => []
        end
      else a :: positionalsFrom n (i + 1) rest
  end.

Definition positionals (args : list string) : list string :=
  positionalsFrom (size args) 1 (tail args).

(** Whether somewhere in [l] a [-h] or [--help] comes directly after a
    [--lang]. *)
Fixpoint helpAfterLang (l : list string) : bool :=
  match l with
  | [] => false
  | a :: rest =>
      (String.eqb a "--lang" && match rest with h :: _ => isHelp h | [] => false end)
      || helpAfterLang rest
  end.

(** An option token of the command line. *)
Definition isOption (a : string) : bool :=
  isHelp a || String.eqb a "--lang".

End CommandLine.

(** ** Values of Qt and of the C library that the driver names *)

Module Qt.

(** [QMessageBox::StandardButton]. *)
Definition Save : Z := 0x800.
Definition Discard : Z := 0x800000.
Definition Cancel : Z := 0x400000.

Definition EXIT_SUCCESS : Z := 0.

(** [QColor]: a colour value that may be invalid ([QColorDialog::getColor]
    answers an invalid colour when the dialog is dismissed). *)
Record QColor : Type := { isValid : bool; rgba : Z }.
Definition white : QColor := {| isValid := true; rgba := 0xffffffff |}.

Record QSize : Type := { width : Z; height : Z }.

End Qt.

(** ** Workflow states and actions *)

(** Modelled from the spec: [StateMachine::State] is declared in
    [statemachine.hpp]; these are the ten states of the spec, which are
    also the ten labels of the [switch] in [Application::runState]. *)
Inductive State : Type :=
| Edit
| InitializeNewMindMap
| SaveMindMap
| ShowOpenDialog
| ShowSaveAsDialog
| ShowBackgroundColorDialog
| ShowExportToPNGDialog
| ShowNotSavedDialog
| TryCloseWindow
| Exit.

(** Modelled from the spec: [StateMachine::Action] is declared in
    [statemachine.hpp]; [application.cpp] names the ten actions from
    [MindMapOpened] to [NotSavedDialogCanceled], the others are listed by
    the spec. *)
Inductive Action : Type :=
| NewMindMap
| MindMapOpened
| MindMapSaved
| MindMapSaveFailed
| MindMapSavedAs
| MindMapSaveAsFailed
| BackgroundColorChanged
| ExportedToPNG
| NotSavedDialogAccepted
| NotSavedDialogDiscarded
| NotSavedDialogCanceled
| RequestOpen
| RequestSave
| RequestSaveAs
| RequestExport
| RequestBackgroundColor
| RequestClose
| RequestNew.

#[global] Instance State_eq_dec : EqDecision State.
Proof. solve_decision. Defined.

#[global] Instance Action_eq_dec : EqDecision Action.
Proof. solve_decision. Defined.

(** ** The interface of [Mediator] that the driver calls ([mediator.hpp])

    A member function that returns [void] maps a mediator to a mediator;
    one that returns [bool] or [QSize] also gives the returned value. *)
Module Mediator.

Class Ops (M : Type) : Type := {
  initializeNewMindMap : M -> M;
  openMindMap : string -> M -> bool * M;
  saveMindMap : M -> bool * M;
  saveMindMapAs : string -> M -> bool * M;
  setBackgroundColor : Qt.QColor -> M -> M;
  zoomForExport : M -> Qt.QSize * M;
  exportToPNG : string -> Qt.QSize -> bool -> M -> M
}.

End Mediator.

(** ** The driver: [Application::runState] and the effects it runs *)

Module Driver.

(** A request made from the export dialog ([pngExportRequested]). *)
Record ExportRequest : Type := {
  exportFile : string;
  exportSize : Qt.QSize;
  transparentBackground : bool
}.

(** Calls into the mediator, as the driver makes them. *)
Inductive MediatorCall : Type :=
| CallInitializeNewMindMap
| CallOpenMindMap (fileName : string)
| CallSaveMindMap
| CallSaveMindMapAs (fileName : string)
| CallSetBackgroundColor (color : Qt.QColor)
| CallZoomForExport
| CallExportToPNG (request : ExportRequest).

(** What the driver does to the world around it, in order. A signal
    [actionTriggered(a)] is recorded as [ActionTriggered a]: it is the
    action submitted to the state machine. The slots connected to the
    signal are not run here; every [emit] is the last statement of its
    function, so nothing of that function runs after they return. *)
Inductive Effect : Type :=
| Logged (level : LogLevel) (text : string)
| SaveWindowSize
| CloseWindow
| SetTitle
| EnableSave (enable : bool)
| DisableUndoAndRedo
| SetSaveActionStatesOnOpenedMindMap
| QApplicationExit (code : Z)
| MessageBox (text : string)
| NotSavedQuestion (text informative : string)
| ExportDialogSetImageSize (size : Qt.QSize)
| ExportDialogExec
| Called (call : MediatorCall)
| ActionTriggered (action : Action).

(** The answers of the user and of the platform while one effect runs. *)
Record User : Type := {
  tr : string -> string;
  homeLocation : string;
  getOpenFileName : string -> string -> string -> string;
  getSaveFileName : string -> string -> string -> string;
  getColor : Qt.QColor -> Qt.QColor;
  notSavedDialogExec : Z;
  exportDialogExec : Qt.QSize -> list ExportRequest
}.

Section WithMediator.
Context {M : Type} `{Mediator.Ops M}.
Context (cfg : Config) (user : User).

(** The application and what surrounds it: the mediator, the
    [recentPath] key of [QSettings], and the effects so far. *)
Record World : Type := {
  mediator : M;
  recentPath : option string;
  effects : list Effect
}.

(** State passing for the member functions of [Application]. *)
Definition Drv (A : Type) : Type := World -> A * World.

Definition ret {A} (a : A) : Drv A := fun w => (a, w).
Definition bind {A B} (m : Drv A) (k : A -> Drv B) : Drv B :=
  fun w => let '(a, w') := m w in k a w'.

Notation "'let*' x ':=' m 'in' k" := (bind m (fun x => k))
  (at level 10, x name, m at level 100, k at level 200).
Notation "m '>>' k" := (bind m (fun _ => k))
  (at level 100, k at level 200, right associativity).

Definition effect (e : Effect) : Drv unit :=
  fun w => (tt, {| mediator := mediator w; recentPath := recentPath w;
                   effects := effects w ++ [e] |}).

Definition call {A} (c : MediatorCall) (f : M -> A * M) : Drv A :=
  fun w => let '(a, m) := f (mediator w) in
           (a, {| mediator := m; recentPath := recentPath w;
                  effects := effects w ++ [Called c] |}).

Definition callVoid (c : MediatorCall) (f : M -> M) : Drv unit :=
  call c (fun m => (tt, f m)).

Definition emit (a : Action) : Drv unit := effect (ActionTriggered a).

Definition getFileDialogFileText : string :=
  tr user "Heimer Files" +:+ " (*" +:+ FILE_EXTENSION cfg +:+ ")".

Definition loadRecentPath : Drv string :=
  fun w => (default (homeLocation user) (recentPath w), w).

Definition saveRecentPath (fileName : string) : Drv unit :=
  fun w => (tt, {| mediator := mediator w; recentPath := Some fileName;
                   effects := effects w |}).

Definition showMessageBox (message : string) : Drv unit :=
  effect (MessageBox message).

(** [Application::showNotSavedDialog]: a [QMessageBox] with the buttons
    Save, Discard and Cancel is shown, and the button that closed it is
    returned. *)
Definition showNotSavedDialog : Drv Z :=
  effect (NotSavedQuestion (tr user "The mind map has been modified.")
            (tr user "Do you want to save your changes?")) >>
  ret (notSavedDialogExec user).

Definition doOpenMindMap (fileName : string) : Drv unit :=
  effect (Logged LogDebug ("Opening '" +:+ fileName)) >>
  let* ok := call (CallOpenMindMap fileName) (Mediator.openMindMap fileName) in
  if ok then
    effect DisableUndoAndRedo >>
    saveRecentPath fileName >>
    effect SetSaveActionStatesOnOpenedMindMap >>
    emit MindMapOpened
  else ret tt.

(** [Application::openArgMindMap], with the member [m_mindMapFile] as
    its argument. *)
Definition openArgMindMap (m_mindMapFile : string) : Drv unit :=
  doOpenMindMap m_mindMapFile.

(** The call of [QFileDialog::getOpenFileName] in [openMindMap]. *)
Definition askOpenFileName (path : string) : string :=
  getOpenFileName user (tr user "Open File") path getFileDialogFileText.

Definition openMindMap : Drv unit :=
  effect (Logged LogDebug "Open file") >>
  let* path := loadRecentPath in
  let fileName := askOpenFileName path in
  if negb (QStr.isEmpty fileName) then doOpenMindMap fileName else ret tt.

Definition saveMindMap : Drv unit :=
  effect (Logged LogDebug "Save..") >>
  let* ok := call CallSaveMindMap Mediator.saveMindMap in
  if negb ok then
    let msg := tr user "Failed to save file." in
    effect (Logged LogError msg) >>
    showMessageBox msg >>
    emit MindMapSaveFailed
  else
    effect (EnableSave false) >>
    emit MindMapSaved.

(** The call of [QFileDialog::getSaveFileName] in [saveMindMapAs]. *)
Definition askSaveFileName : string :=
  getSaveFileName user (tr user "Save File As") (homeLocation user) getFileDialogFileText.

(** The file name after the second [if] of [saveMindMapAs]. *)
Definition withExtension (fileName : string) : string :=
  if negb (QStr.endsWith fileName (FILE_EXTENSION cfg))
  then fileName +:+ FILE_EXTENSION cfg else fileName.

Definition saveMindMapAs : Drv unit :=
  effect (Logged LogDebug "Save as..") >>
  let fileName := askSaveFileName in
  if QStr.isEmpty fileName then ret tt
  else
    let fileName := withExtension fileName in
    let* ok := call (CallSaveMindMapAs fileName) (Mediator.saveMindMapAs fileName) in
    if ok then
      let msg := tr user "File '" +:+ fileName +:+ tr user "' saved." in
      effect (Logged LogDebug msg) >>
      emit MindMapSavedAs
    else
      let msg := tr user "Failed to save file as '" +:+ fileName +:+ "'." in
      effect (Logged LogError msg) >>
      showMessageBox msg >>
      emit MindMapSaveAsFailed.

Definition showBackgroundColorDialog : Drv unit :=
  let color := getColor user Qt.white in
  (if Qt.isValid color
   then callVoid (CallSetBackgroundColor color) (Mediator.setBackgroundColor color)
   else ret tt) >>
  emit BackgroundColorChanged.

(** [m_exportToPNGDialog->exec()]: while the dialog is open every
    [pngExportRequested] reaches [Mediator::exportToPNG] (connected in
    the constructor of [Application]). *)
Fixpoint exportRequests (rs : list ExportRequest) : Drv unit :=
  match rs with
  | [] => ret tt
  | r :: rs' =>
      callVoid (CallExportToPNG r)
        (Mediator.exportToPNG (exportFile r) (exportSize r) (transparentBackground r)) >>
      exportRequests rs'
  end.

Definition showExportToPNGDialog : Drv unit :=
  let* size := call CallZoomForExport Mediator.zoomForExport in
  effect (ExportDialogSetImageSize size) >>
  effect ExportDialogExec >>
  exportRequests (exportDialogExec user size) >>
  emit ExportedToPNG.

(** [Application::runState]. The label [default] shares the branch of
    [Edit]. *)
Definition runState (state : State) : Drv unit :=
  match state with
  | TryCloseWindow => effect SaveWindowSize >> effect CloseWindow
  | Exit => effect SaveWindowSize >> effect (QApplicationExit Qt.EXIT_SUCCESS)
  | Edit => effect SetTitle
  | InitializeNewMindMap => callVoid CallInitializeNewMindMap Mediator.initializeNewMindMap
  | SaveMindMap => saveMindMap
  | ShowBackgroundColorDialog => showBackgroundColorDialog
  | ShowExportToPNGDialog => showExportToPNGDialog
  | ShowNotSavedDialog =>
      let* answer := showNotSavedDialog in
      if answer =? Qt.Save then emit NotSavedDialogAccepted
      else if answer =? Qt.Discard then emit NotSavedDialogDiscarded
      else if answer =? Qt.Cancel then emit NotSavedDialogCanceled
      else ret tt
  | ShowSaveAsDialog => saveMindMapAs
  | ShowOpenDialog => openMindMap
  end.

(** One run of [runState] from a world without past: what was done,
    which actions were submitted, which calls reached the mediator, and
    whether the process was told to exit. *)
Definition start (m : M) (recent : option string) : World :=
  {| mediator := m; recentPath := recent; effects := [] |}.

Definition effectsOf (state : State) (m : M) (recent : option string) : list Effect :=
  effects (snd (runState state (start m recent))).

Definition mediatorAfter (state : State) (m : M) (recent : option string) : M :=
  mediator (snd (runState state (start m recent))).

Definition submitted (es : list Effect) : list Action :=
  omap (fun e => match e with ActionTriggered a => Some a | _ => None end) es.

Definition calls (es : list Effect) : list MediatorCall :=
  omap (fun e => match e with Called c => Some c | _ => None end) es.

Definition exits (es : list Effect) : list Z :=
  omap (fun e => match e with QApplicationExit c => Some c | _ => None end) es.

Definition messages (es : list Effect) : list string :=
  omap (fun e => match e with MessageBox t => Some t | _ => None end) es.

End WithMediator.

End Driver.

(** ** The workflow state machine *)

Module StateMachine.

(** The read-only snapshot that the transition rules consult. *)
Record Guards : Type := {
  isModified : bool;
  hasNodes : bool;
  hasPendingFile : bool
}.

Inductive Pending : Type := PendingNew | PendingOpen | PendingClose.

Record Machine : Type := {
  current : State;
  pending : option Pending
}.

Definition goto (s : State) (p : option Pending) : Machine :=
  {| current := s; pending := p |}.

Definition resume (p : option Pending) : Machine :=
  match p with
  | Some PendingNew => goto InitializeNewMindMap None
  | Some PendingOpen => goto ShowOpenDialog None
  | Some PendingClose => goto TryCloseWindow None
  | None => goto Edit None
  end.

(** Modelled from the spec: [StateMachine::calculateState] is defined in
    [statemachine.cpp]. This is the transition table of the spec, with the
    slot for the pending operation that its design notes ask for; a pair
    that the table does not list returns to [Edit]. The window that
    closes in [TryCloseWindow] reports back as [RequestClose]. *)
Definition transition (m : Machine) (a : Action) (g : Guards) : Machine :=
  match a with
  | RequestNew =>
      if isModified g then goto ShowNotSavedDialog (Some PendingNew)
      else goto InitializeNewMindMap None
  | RequestOpen =>
      if isModified g then goto ShowNotSavedDialog (Some PendingOpen)
      else goto ShowOpenDialog None
  | RequestClose =>
      match current m with
      | TryCloseWindow => goto Exit None
      | _ =>
          if isModified g then goto ShowNotSavedDialog (Some PendingClose)
          else goto TryCloseWindow None
      end
  | NotSavedDialogAccepted => goto SaveMindMap (pending m)
  | NotSavedDialogDiscarded => resume (pending m)
  | NotSavedDialogCanceled => goto Edit None
  | MindMapSaved => resume (pending m)
  | MindMapOpened | MindMapSavedAs | BackgroundColorChanged | ExportedToPNG =>
      goto Edit None
  | MindMapSaveFailed | MindMapSaveAsFailed => goto Edit None
  | RequestExport => goto ShowExportToPNGDialog None
  | RequestBackgroundColor => goto ShowBackgroundColorDialog None
  | RequestSave => goto SaveMindMap None
  | RequestSaveAs => goto ShowSaveAsDialog None
  | NewMindMap => goto Edit None
  end.

End StateMachine.

(** ** The document behind the mediator *)

Module MindMap.

Definition Point : Type := Z * Z.
Definition Edge : Type := nat * nat.

(** Modelled from the spec: [Node] is declared in [node.hpp]; a node is
    identified by its index and has a position. *)
Record Node : Type := { index : nat; location : Point }.

(** Modelled from the spec: the graph is kept by [EditorData], which is
    not part of the source files; nodes by index with their position, and
    edges between two indices. *)
Record Graph : Type := {
  nodes : gmap nat Point;
  edges : gset (nat * nat)
}.

Definition touches (id : nat) (e : nat * nat) : Prop := e.1 = id \/ e.2 = id.

#[global] Instance touches_dec id e : Decision (touches id e).
Proof. unfold touches. apply _. Defined.


Definition emptyGraph : Graph := {| nodes := ∅; edges := ∅ |}.




(** Modelled from the spec: the document of section 3. *)
Record Document : Type := {
  graph : Graph;
  filePath : option string;
  isModified : bool
}.

(** Modelled from the spec: an undo command, a reversible record of one
    graph mutation. *)
Inductive Command : Type :=
| NodeCreated (id : nat) (p : Point) (es : gset (nat * nat))
| NodeDeleted (id : nat) (p : Point) (es : gset (nat * nat)).



(** Modelled from the spec: the two stacks of the undo engine (the bound
    on the history, which the spec does not give, is left out). *)
Record UndoEngine : Type := {
  undoStack : list Command;
  redoStack : list Command
}.

(** Modelled from the spec: the external collaborators [load] and [save]
    of the file format. *)
Record Storage : Type := {
  load : string -> option Graph;
  save : Graph -> string -> bool
}.

(** Modelled from the spec: what the mediator owns (the members of
    [Mediator] in [mediator.hpp] are pointers to classes outside the
    source files). *)
Record T : Type := {
  document : Document;
  history : UndoEngine;
  selection : option nat;
  background : Qt.QColor;
  sceneRectSize : Qt.QSize;
  storage : Storage
}.

Definition withDocument (d : Document) (h : UndoEngine) (sel : option nat) (m : T) : T :=
  {| document := d; history := h; selection := sel;
     background := background m; sceneRectSize := sceneRectSize m;
     storage := storage m |}.

(** The selection is a weak reference: it is dropped when its node is
    no longer in the graph. *)
Definition prune (g : Graph) (sel : option nat) : option nat :=
  match sel with
  | Some id => if decide (id ∈ dom (nodes g)) then Some id else None
  | None => None
  end.













Definition isRedoable (m : T) : bool :=
  match redoStack (history m) with [] => false | _ => true end.

(** Modelled from the spec: [Mediator::initializeNewMindMap] is defined
    in [mediator.cpp]; the spec names the operation only, it is taken to
    start an empty, unmodified document without a file. *)
Definition initializeNewMindMap (m : T) : T :=
  withDocument
    {| graph := emptyGraph; filePath := None; isModified := false |}
    {| undoStack := []; redoStack := [] |} None m.

(** Modelled from the spec: [Mediator::openMindMap] is defined in
    [mediator.cpp]; a failed load changes nothing, a successful one
    replaces the graph, sets the file path, clears the modified flag and
    both stacks. *)
Definition openMindMap (path : string) (m : T) : bool * T :=
  match load (storage m) path with
  | Some g =>
      (true, withDocument
               {| graph := g; filePath := Some path; isModified := false |}
               {| undoStack := []; redoStack := [] |} (prune g (selection m)) m)
  | None => (false, m)
  end.

(** Modelled from the spec: [Mediator::saveMindMapAs] is defined in
    [mediator.cpp]; a failed write changes nothing, a successful one
    sets the file path and clears the modified flag. *)
Definition saveMindMapAs (path : string) (m : T) : bool * T :=
  if save (storage m) (graph (document m)) path then
    (true, withDocument
             {| graph := graph (document m); filePath := Some path; isModified := false |}
             (history m) (selection m) m)
  else (false, m).

(** Modelled from the spec: [Mediator::saveMindMap] is defined in
    [mediator.cpp]; it writes to the file path of the document and fails
    when there is none or when the write fails. *)
Definition saveMindMap (m : T) : bool * T :=
  match filePath (document m) with
  | Some path => saveMindMapAs path m
  | None => (false, m)
  end.

(** Modelled from the spec: [Mediator::setBackgroundColor] is defined in
    [mediator.cpp]; a property mutation that marks the document
    modified. *)
Definition setBackgroundColor (color : Qt.QColor) (m : T) : T :=
  {| document := {| graph := graph (document m); filePath := filePath (document m);
                    isModified := true |};
     history := history m; selection := selection m;
     background := color; sceneRectSize := sceneRectSize m;
     storage := storage m |}.

(** Modelled from the spec: [Mediator::exportToPNG] is defined in
    [mediator.cpp]; a read-only render of the graph to an external
    sink. *)
Definition exportToPNG (file : string) (size : Qt.QSize) (transparent : bool) (m : T) : T := m.

(** Modelled from the spec: [Mediator::zoomForExport] is defined in
    [mediator.cpp] and the spec does not describe it; it is taken to be
    a view operation that answers the size of the scene. *)
Definition zoomForExport (m : T) : Qt.QSize * T := (sceneRectSize m, m).

(** The edits that the undo history records. *)
Inductive Edit : Type :=
| AddNode (p : Point)
| AddNodeFrom (source : nat) (p : Point)
| DeleteNode (node : Node).




#[global] Instance ops : Mediator.Ops T := {
  Mediator.initializeNewMindMap := initializeNewMindMap;
  Mediator.openMindMap := openMindMap;
  Mediator.saveMindMap := saveMindMap;
  Mediator.saveMindMapAs := saveMindMapAs;
  Mediator.setBackgroundColor := setBackgroundColor;
  Mediator.zoomForExport := zoomForExport;
  Mediator.exportToPNG := exportToPNG
}.

End MindMap.

(** ** Values to run the model on

    The constants of [config.hpp] are not part of the two source files;
    these are values to evaluate the definitions with. *)

Module Sample.

Definition heimer : Config :=
  {| FILE_EXTENSION := ".alz";
     COPYRIGHT := "Copyright (c) 2018 Jussi Lind";
     TRANSLATIONS_RESOURCE_BASE := ":/translations/heimer_";
     VERSION := "1.0.0" |}.

(** A platform in English that ships the Finnish translation. *)
Definition platform : Platform :=
  {| systemLocaleName := "en_US";
     translatorLoad := fun resource => String.eqb resource ":/translations/heimer_fi" |}.

(** A user who dismisses every dialog. *)
Definition dismissing : Driver.User :=
  {| Driver.tr := fun text => text;
     Driver.homeLocation := "/home/user";
     Driver.getOpenFileName := fun _ _ _ => EmptyString;
     Driver.getSaveFileName := fun _ _ _ => EmptyString;
     Driver.getColor := fun _ => {| Qt.isValid := false; Qt.rgba := 0 |};
     Driver.notSavedDialogExec := Qt.Cancel;
     Driver.exportDialogExec := fun _ => [] |}.

(** A user who confirms every dialog. *)
Definition confirming : Driver.User :=
  {| Driver.tr := fun text => text;
     Driver.homeLocation := "/home/user";
     Driver.getOpenFileName := fun _ _ _ => "/home/user/plan.alz";
     Driver.getSaveFileName := fun _ _ _ => "/home/user/plan";
     Driver.getColor := fun _ => {| Qt.isValid := true; Qt.rgba := 0xff00ff00 |};
     Driver.notSavedDialogExec := Qt.Save;
     Driver.exportDialogExec := fun size =>
       [ {| Driver.exportFile := "/home/user/plan.png";
            Driver.exportSize := size;
            Driver.transparentBackground := false |} ] |}.

(** Storage on which every write fails and nothing can be read. *)
Definition readOnly : MindMap.Storage :=
  {| MindMap.load := fun _ => None; MindMap.save := fun _ _ => false |}.

(** Storage on which every write succeeds. *)
Definition writable : MindMap.Storage :=
  {| MindMap.load := fun _ => Some MindMap.emptyGraph; MindMap.save := fun _ _ => true |}.

Definition blankOn (st : MindMap.Storage) : MindMap.T :=
  {| MindMap.document :=
       {| MindMap.graph := MindMap.emptyGraph;
          MindMap.filePath := Some "/home/user/plan.alz";
          MindMap.isModified := false |};
     MindMap.history := {| MindMap.undoStack := []; MindMap.redoStack := [] |};
     MindMap.selection := None;
     MindMap.background := Qt.white;
     MindMap.sceneRectSize := {| Qt.width := 800; Qt.height := 600 |};
     MindMap.storage := st |}.

Definition blank : MindMap.T := blankOn writable.




End Sample.

(** ** What the constructor schedules, and more to observe in a run *)

Module Startup.

Section WithMediator.
Context {M : Type} `{Mediator.Ops M}.
Context (cfg : Config) (user : Driver.User).

(** The end of the constructor of [Application]: when [m_mindMapFile]
    is not empty a timer sets off [openArgMindMap]; this is what then
    runs. *)
Definition scheduled (m_mindMapFile : string) : Driver.Drv unit :=
  if negb (QStr.isEmpty m_mindMapFile)
  then Driver.openArgMindMap m_mindMapFile
  else Driver.ret tt.

(** The [recentPath] key of [QSettings] after one run of [runState]. *)
Definition recentAfter (state : State) (m : M) (recent : option string) : option string :=
  Driver.recentPath (snd (Driver.runState cfg user state (Driver.start m recent))).

(** The member function of [Mediator] behind a recorded call. *)
Definition applyCall (c : Driver.MediatorCall) (m : M) : M :=
  match c with
  | Driver.CallInitializeNewMindMap => Mediator.initializeNewMindMap m
  | Driver.CallOpenMindMap fileName => snd (Mediator.openMindMap fileName m)
  | Driver.CallSaveMindMap => snd (Mediator.saveMindMap m)
  | Driver.CallSaveMindMapAs fileName => snd (Mediator.saveMindMapAs fileName m)
  | Driver.CallSetBackgroundColor color => Mediator.setBackgroundColor color m
  | Driver.CallZoomForExport => snd (Mediator.zoomForExport m)
  | Driver.CallExportToPNG r =>
      Mediator.exportToPNG (Driver.exportFile r) (Driver.exportSize r)
        (Driver.transparentBackground r) m
  end.

(** The calls made one after the other. *)
Definition replay (cs : list Driver.MediatorCall) (m : M) : M :=
  foldl (fun m c => applyCall c m) m cs.

End WithMediator.

(** The texts of the [QMessageBox]es shown: those of [showMessageBox]
    and the question of [showNotSavedDialog]. *)
Definition boxes (es : list Driver.Effect) : list string :=
  omap (fun e => match e with
                 | Driver.MessageBox t | Driver.NotSavedQuestion t _ => Some t
                 | _ => None
                 end) es.

(** The texts logged at error level. *)
Definition errorLogs (es : list Driver.Effect) : list string :=
  omap (fun e => match e with Driver.Logged LogError t => Some t | _ => None end) es.

(** The state whose effect emits an action in [application.cpp]; the
    actions that the file does not emit have none. *)
Definition submitter (a : Action) : option State :=
  match a with
  | MindMapOpened => Some ShowOpenDialog
  | MindMapSaved | MindMapSaveFailed => Some SaveMindMap
  | MindMapSavedAs | MindMapSaveAsFailed => Some ShowSaveAsDialog
  | BackgroundColorChanged => Some ShowBackgroundColorDialog
  | ExportedToPNG => Some ShowExportToPNGDialog
  | NotSavedDialogAccepted | NotSavedDialogDiscarded | NotSavedDialogCanceled =>
      Some ShowNotSavedDialog
  | _ => None
  end.

End Startup.

(** * Properties *)

(** ** The command line *)

Section CommandLineFacts.
Import CommandLine.
Context (cfg : Config) (sys : Platform).

Lemma wrap_small z : 0 <= z < UINT_MODULUS -> wrap z = z.
Proof. intros Hz. unfold wrap. apply Z.mod_small. exact Hz. Qed.

Lemma parseLoop_unfold fuel args i st :
  parseLoop cfg fuel args i st =
  if negb (i <? size args) then Returned st
  else
    match fuel with
    | O => OutOfFuel
    | S fuel' =>
        match at_ args i with
        | None => OutOfBounds
        | Some a =>
            if isHelp a then Thrown (printHelp cfg) helpException
            else if String.eqb a "--lang" && (wrap (i + i) <? size args) then
              match at_ args (wrap (i + 1)) with
              | None => OutOfBounds
              | Some code =>
                  parseLoop cfg fuel' args (wrap (wrap (i + 1) + 1))
                    {| lang := code; m_mindMapFile := m_mindMapFile st |}
              end
            else parseLoop cfg fuel' args (wrap (i + 1))
                   {| lang := lang st; m_mindMapFile := a |}
        end
    end.
Proof. destruct fuel; reflexivity. Qed.

Lemma at_drop args i a rest :
  0 <= i -> drop (Z.to_nat i) args = a :: rest ->
  at_ args i = Some a /\ drop (Z.to_nat (i + 1)) args = rest.
Proof.
  intros Hi Hd. unfold at_.
  destruct (Z.ltb_spec i 0) as [|_]; [lia|].
  split.
  - pose proof (lookup_drop args (Z.to_nat i) 0) as E.
    rewrite Hd, Nat.add_0_r in E. simpl in E. congruence.
  - replace (Z.to_nat (i + 1)) with (Z.to_nat i + 1)%nat by lia.
    rewrite <- drop_drop, Hd. reflexivity.
Qed.

Lemma drop_nonempty (args : list string) i :
  0 <= i < size args -> exists a rest, drop (Z.to_nat i) args = a :: rest.
Proof.
  intros Hi. unfold size in Hi.
  destruct (drop (Z.to_nat i) args) as [|a rest] eqn:Hd; [|eauto].
  apply (f_equal length) in Hd. rewrite length_drop in Hd. simpl in Hd. lia.
Qed.

(** The loop of the source and the scan over the remaining arguments
    agree as long as the index stays below [INT_MAX]. *)
Lemma parseLoop_scanFrom fuel : forall args i l st,
  size args <= INT_MAX -> 1 <= i <= size args ->
  l = drop (Z.to_nat i) args -> (length l <= fuel)%nat ->
  parseLoop cfg fuel args i st = scanFrom cfg (size args) i l st.
Proof.
  induction fuel as [|fuel IH]; intros args i l st Hmax Hi Hl Hfuel;
    rewrite parseLoop_unfold.
  - destruct l; [|simpl in Hfuel; lia].
    destruct (Z.ltb_spec i (size args)) as [Hlt|Hge]; [|reflexivity].
    destruct (drop_nonempty args i) as (a & rest & Hd); [lia|]. congruence.
  - destruct (Z.ltb_spec i (size args)) as [Hlt|Hge]; simpl negb; cbv iota.
    + destruct (drop_nonempty args i) as (a & rest & Hd); [lia|].
      rewrite Hd in Hl. subst l.
      destruct (at_drop args i a rest) as [Ha Hrest]; [lia|exact Hd|].
      rewrite Ha. simpl scanFrom.
      destruct (isHelp a); [reflexivity|].
      unfold INT_MAX in Hmax.
      rewrite (wrap_small (i + i)) by (unfold UINT_MODULUS; lia).
      rewrite (wrap_small (i + 1)) by (unfold UINT_MODULUS; lia).
      destruct (String.eqb a "--lang" && (i + i <? size args)) eqn:Hlang.
      * apply andb_true_iff in Hlang as [_ Hii]. apply Z.ltb_lt in Hii.
        destruct (drop_nonempty args (i + 1)) as (code & rest' & Hd'); [lia|].
        destruct (at_drop args (i + 1) code rest') as [Hc Hrest']; [lia|exact Hd'|].
        rewrite Hc. rewrite Hd' in Hrest. subst rest.
        rewrite (wrap_small (i + 1 + 1)) by (unfold UINT_MODULUS; lia).
        replace (i + 1 + 1) with (i + 2) in * by lia.
        apply IH; [unfold INT_MAX; lia|lia|congruence|simpl in Hfuel; lia].
      * apply IH; [unfold INT_MAX; lia|lia|congruence|simpl in Hfuel; lia].
    + assert (i = size args) by lia. subst i.
      unfold size in Hl. rewrite Nat2Z.id, drop_all in Hl. subst l. reflexivity.
Qed.

Lemma parseArgs_scan args :
  size args <= INT_MAX ->
  parseLoop cfg (length args) args 1 initial =
  scanFrom cfg (size args) 1 (tail args) initial.
Proof.
  intros Hmax. destruct args as [|prog rest]; [reflexivity|].
  apply parseLoop_scanFrom; [exact Hmax|unfold size; simpl length; lia|reflexivity|].
  simpl. lia.
Qed.

(** Within bounds the scan either returns or throws after printing the
    usage text. *)
Lemma scanFrom_total n k : forall l i st,
  (length l <= k)%nat -> 1 <= i -> n = i + Z.of_nat (length l) ->
  (exists st', scanFrom cfg n i l st = Returned st') \/
  scanFrom cfg n i l st = Thrown (printHelp cfg) helpException.
Proof.
  induction k as [|k IH]; intros l i st Hk Hi Hn.
  - destruct l; [left; eexists; reflexivity|simpl in Hk; lia].
  - destruct l as [|a rest]; [left; eexists; reflexivity|].
    simpl scanFrom. destruct (isHelp a); [right; reflexivity|].
    simpl length in *.
    destruct (String.eqb a "--lang" && (i + i <? n)) eqn:Hlang.
    + apply andb_true_iff in Hlang as [_ Hii]. apply Z.ltb_lt in Hii.
      destruct rest as [|code rest']; [simpl length in *; lia|].
      simpl length in *. apply IH; lia.
    + apply IH; lia.
Qed.

(** The scan throws only on an argument that is [-h] or [--help]. *)
Lemma scanFrom_thrown n k : forall l i st out e,
  (length l <= k)%nat ->
  scanFrom cfg n i l st = Thrown out e -> existsb isHelp l = true.
Proof.
  induction k as [|k IH]; intros l i st out e Hk Hs.
  - destruct l; [discriminate|simpl in Hk; lia].
  - destruct l as [|a rest]; [discriminate|].
    simpl in Hs |- *. destruct (isHelp a); [reflexivity|]. simpl.
    destruct (String.eqb a "--lang" && (i + i <? n)).
    + destruct rest as [|code rest']; [discriminate|].
      simpl in Hk |- *. apply IH in Hs; [|lia]. rewrite Hs. apply orb_true_r.
    + apply IH in Hs; [exact Hs|simpl in Hk; lia].
Qed.

(** Without any [--lang] every argument is examined. *)
Lemma scanFrom_nolang n : forall l i st,
  existsb (fun a => String.eqb a "--lang") l = false ->
  existsb isHelp l = true ->
  scanFrom cfg n i l st = Thrown (printHelp cfg) helpException.
Proof.
  induction l as [|a rest IH]; intros i st Hl Hh; [discriminate|].
  simpl in *. apply orb_false_iff in Hl as [Ha Hrest].
  destruct (isHelp a); [reflexivity|]. rewrite Ha. simpl. apply IH; assumption.
Qed.

(** The file is assigned once per positional argument, in order. *)
Lemma scanFrom_positionals n k : forall l i st st',
  (length l <= k)%nat ->
  scanFrom cfg n i l st = Returned st' ->
  m_mindMapFile st' = default (m_mindMapFile st) (last (positionalsFrom n i l)).
Proof.
  induction k as [|k IH]; intros l i st st' Hk Hs.
  - destruct l; [|simpl in Hk; lia]. simpl in Hs |- *. congruence.
  - destruct l as [|a rest]; [simpl in Hs |- *; congruence|].
    simpl in Hs |- *. destruct (isHelp a); [discriminate|].
    destruct (String.eqb a "--lang" && (i + i <? n)).
    + destruct rest as [|code rest']; [discriminate|].
      apply IH in Hs; [exact Hs|simpl in Hk; lia].
    + apply IH in Hs; [|simpl in Hk; lia]. simpl in Hs. rewrite Hs.
      rewrite last_cons. destruct (last (positionalsFrom n (i + 1) rest)); reflexivity.
Qed.

(** The last argument, unless it is the value of a [--lang], is the
    last assignment of the file. *)
Lemma scanFrom_last n p k : forall l i st,
  (length l <= k)%nat -> 1 <= i -> n = i + Z.of_nat (length (l ++ [p])) ->
  existsb isHelp (l ++ [p]) = false -> last l <> Some "--lang" ->
  exists st', scanFrom cfg n i (l ++ [p]) st = Returned st' /\ m_mindMapFile st' = p.
Proof.
  induction k as [|k IH]; intros l i st Hk Hi Hn Hh Hlast.
  - destruct l; [|simpl in Hk; lia]. simpl in *.
    apply orb_false_iff in Hh as [Hp _]. rewrite Hp.
    destruct (Z.ltb_spec (i + i) n) as [Hlt|_]; [lia|].
    rewrite andb_false_r. eexists; split; reflexivity.
  - destruct l as [|a rest].
    { apply (IH [] i st); [simpl; lia|exact Hi|exact Hn|exact Hh|exact Hlast]. }
    simpl in Hh. apply orb_false_iff in Hh as [Ha Hrest].
    simpl app. simpl scanFrom. rewrite Ha.
    rewrite length_app in Hn. simpl length in *.
    destruct (String.eqb a "--lang" && (i + i <? n)) eqn:Hlang.
    + apply andb_true_iff in Hlang as [Hal _]. apply String.eqb_eq in Hal. subst a.
      destruct rest as [|code rest']; [contradiction Hlast; reflexivity|].
      simpl app. simpl in Hrest. apply orb_false_iff in Hrest as [_ Hrest'].
      apply IH; [simpl in Hk; lia|lia|rewrite length_app; simpl length in *; lia|exact Hrest'|].
      destruct rest' as [|b rest'']; [discriminate|].
      intros E. apply Hlast. rewrite !last_cons_cons. exact E.
    + apply IH; [lia|lia|rewrite length_app; simpl length; lia|exact Hrest|].
      destruct rest as [|b rest']; [discriminate|].
      intros E. apply Hlast. rewrite last_cons_cons. exact E.
Qed.

Lemma parseArgs_returned args r :
  size args <= INT_MAX -> parseArgs cfg sys args = Returned r ->
  exists st, scanFrom cfg (size args) 1 (tail args) initial = Returned st /\
             mindMapFile r = m_mindMapFile st /\ requestedLang r = lang st.
Proof.
  intros Hmax. unfold parseArgs. rewrite (parseArgs_scan args Hmax).
  destruct (scanFrom cfg (size args) 1 (tail args) initial) as [st|out e| |];
    try discriminate.
  destruct (initTranslations cfg sys (lang st)) as [tr out].
  intros E. injection E as <-. exists st. repeat split; reflexivity.
Qed.

Lemma parseArgs_of_returned args st :
  size args <= INT_MAX ->
  scanFrom cfg (size args) 1 (tail args) initial = Returned st ->
  exists r, parseArgs cfg sys args = Returned r /\
            mindMapFile r = m_mindMapFile st /\ requestedLang r = lang st.
Proof.
  intros Hmax Hs. unfold parseArgs. rewrite (parseArgs_scan args Hmax).
  rewrite Hs. destruct (initTranslations cfg sys (lang st)) as [tr out].
  eexists. repeat split; reflexivity.
Qed.

Lemma parseArgs_thrown args out e :
  size args <= INT_MAX ->
  parseArgs cfg sys args = Thrown out e <->
  scanFrom cfg (size args) 1 (tail args) initial = Thrown out e.
Proof.
  intros Hmax. unfold parseArgs. rewrite (parseArgs_scan args Hmax).
  destruct (scanFrom cfg (size args) 1 (tail args) initial) as [st|out' e'| |].
  - destruct (initTranslations cfg sys (lang st)) as [tr o]. split; discriminate.
  - split; intros E; injection E as -> ->; reflexivity.
  - split; discriminate.
  - split; discriminate.
Qed.

Lemma scan_total args :
  size args <= INT_MAX ->
  (exists st, scanFrom cfg (size args) 1 (tail args) initial = Returned st) \/
  scanFrom cfg (size args) 1 (tail args) initial = Thrown (printHelp cfg) helpException.
Proof.
  intros Hmax. destruct args as [|prog rest].
  - left. eexists. reflexivity.
  - apply (scanFrom_total (size (prog :: rest)) (length rest));
      [simpl; lia|lia|unfold size; simpl; lia].
Qed.

(** Parsing ends in one of two ways: it returns, or it throws after
    printing the usage text. *)
Lemma parseArgs_total args :
  size args <= INT_MAX ->
  (exists r, parseArgs cfg sys args = Returned r) \/
  parseArgs cfg sys args = Thrown (printHelp cfg) helpException.
Proof.
  intros Hmax. destruct (scan_total args Hmax) as [[st Hs]|Hs].
  - left. destruct (parseArgs_of_returned args st Hmax Hs) as (r & Hr & _). eauto.
  - right. apply parseArgs_thrown; assumption.
Qed.

Lemma parseArgs_thrown_help args out e :
  size args <= INT_MAX -> parseArgs cfg sys args = Thrown out e ->
  existsb isHelp (tail args) = true.
Proof.
  intros Hmax Ht. apply parseArgs_thrown in Ht; [|exact Hmax].
  exact (scanFrom_thrown _ _ _ _ _ _ _ (Nat.le_refl _) Ht).
Qed.

(** Arguments that are no option tokens are read one by one, each
    becoming the file. *)
Lemma scanFrom_files n l1 : forall i l2 st,
  existsb isOption l1 = false ->
  scanFrom cfg n i (l1 ++ l2) st =
  scanFrom cfg n (i + Z.of_nat (length l1)) l2
    {| lang := lang st; m_mindMapFile := default (m_mindMapFile st) (last l1) |}.
Proof.
  induction l1 as [|a l1 IH]; intros i l2 st Hopt.
  - simpl. rewrite Z.add_0_r. destruct st; reflexivity.
  - simpl in Hopt. apply orb_false_iff in Hopt as [Ha Hl1].
    unfold isOption in Ha. apply orb_false_iff in Ha as [Hhelp Hlang].
    simpl app. simpl scanFrom. rewrite Hhelp, Hlang. simpl andb. cbv iota.
    rewrite IH by exact Hl1. simpl lang. simpl m_mindMapFile.
    rewrite last_cons. simpl length.
    replace (i + 1 + Z.of_nat (length l1)) with (i + Z.of_nat (S (length l1))) by lia.
    destruct (last l1); reflexivity.
Qed.

Lemma scanFrom_files_only n l i st :
  existsb isOption l = false ->
  scanFrom cfg n i l st =
  Returned {| lang := lang st; m_mindMapFile := default (m_mindMapFile st) (last l) |}.
Proof.
  intros Hopt. pose proof (scanFrom_files n l i [] st Hopt) as E.
  rewrite app_nil_r in E. exact E.
Qed.

Lemma scanFrom_lang n i l st :
  scanFrom cfg n i ("--lang" :: l) st =
  if i + i <? n then
    match l with
    | code :: rest => scanFrom cfg n (i + 2) rest
                        {| lang := code; m_mindMapFile := m_mindMapFile st |}
    | [] => OutOfBounds
    end
  else scanFrom cfg n (i + 1) l {| lang := lang st; m_mindMapFile := "--lang" |}.
Proof. reflexivity. Qed.

(** X1. Where [--lang] is honoured. In a command line with file names and
    one [--lang code], the option is accepted exactly when its index [i]
    satisfies [2 * i < argc]; otherwise the language stays empty and
    [--lang], [code] and what follows are taken as file names. *)
Lemma lang_honoured_in_first_half (prog code : string) (files rest : list string) :
  let args := prog :: files ++ "--lang" :: code :: rest in
  size args <= INT_MAX ->
  existsb isOption (files ++ code :: rest) = false ->
  exists r, parseArgs cfg sys args = Returned r /\
    if 2 * (1 + Z.of_nat (length files)) <? size args
    then requestedLang r = code /\
         mindMapFile r = default EmptyString (last (files ++ rest))
    else requestedLang r = EmptyString /\
         mindMapFile r = default code (last rest).
Proof.
  intros args Hmax Hopt.
  rewrite existsb_app in Hopt. apply orb_false_iff in Hopt as [Hfiles Hrest].
  pose proof Hrest as Hcr. simpl in Hrest. apply orb_false_iff in Hrest as [Hcode Hrest].
  set (i := 1 + Z.of_nat (length files)).
  assert (Hscan : exists st,
             scanFrom cfg (size args) 1 (tail args) initial = Returned st /\
             if 2 * i <? size args
             then lang st = code /\
                  m_mindMapFile st = default EmptyString (last (files ++ rest))
             else lang st = EmptyString /\ m_mindMapFile st = default code (last rest)).
  { unfold args at 2. simpl tail. rewrite scanFrom_files by exact Hfiles. fold i.
    rewrite scanFrom_lang. replace (i + i) with (2 * i) by lia.
    destruct (2 * i <? size args).
    - rewrite scanFrom_files_only by exact Hrest.
      eexists. split; [reflexivity|]. simpl. split; [reflexivity|].
      rewrite last_app. destruct (last rest); reflexivity.
    - rewrite scanFrom_files_only by exact Hcr.
      eexists. split; [reflexivity|]. simpl. split; [reflexivity|].
      rewrite last_cons. destruct (last rest); reflexivity. }
  destruct Hscan as (st & Hs & Hst).
  destruct (parseArgs_of_returned args st Hmax Hs) as (r & Hr & Hfile & Hlang).
  exists r. split; [exact Hr|]. rewrite Hfile, Hlang. exact Hst.
Qed.

(** Unless it comes directly after a [--lang], a help option is
    reached by the scan. *)
Lemma scanFrom_help_reached n k : forall l i st,
  (length l <= k)%nat ->
  helpAfterLang l = false -> existsb isHelp l = true ->
  scanFrom cfg n i l st = Thrown (printHelp cfg) helpException.
Proof.
  induction k as [|k IH]; intros l i st Hk Hafter Hhelp.
  - destruct l; [discriminate|simpl in Hk; lia].
  - destruct l as [|a rest]; [discriminate|].
    simpl scanFrom. destruct (isHelp a) eqn:Ha; [reflexivity|].
    simpl in Hhelp. rewrite Ha in Hhelp. simpl in Hhelp.
    simpl in Hafter. apply orb_false_iff in Hafter as [Hpair Hrest].
    destruct (String.eqb a "--lang" && (i + i <? n)) eqn:Hlang.
    + apply andb_true_iff in Hlang as [Hal _]. rewrite Hal in Hpair.
      destruct rest as [|code rest']; [discriminate|].
      simpl in Hpair. simpl in Hhelp. rewrite Hpair in Hhelp. simpl in Hhelp.
      simpl in Hrest. apply orb_false_iff in Hrest as [_ Hrest'].
      apply IH; [simpl in Hk; lia|exact Hrest'|exact Hhelp].
    + apply IH; [simpl in Hk; lia|exact Hrest|exact Hhelp].
Qed.

(** C8, as amended. Parsing either returns or throws [UserException]
    after printing the usage text. It throws only if an argument after
    the program name is [-h] or [--help]; when no [-h] or [--help] comes
    directly after a [--lang] it throws if and only if there is such an
    argument; and without such an argument it returns. *)
Theorem C8_help_raises (args : list string) :
  size args <= INT_MAX ->
  ((exists r, parseArgs cfg sys args = Returned r) \/
   parseArgs cfg sys args = Thrown (printHelp cfg) helpException) /\
  (forall out e, parseArgs cfg sys args = Thrown out e ->
                 existsb isHelp (tail args) = true) /\
  (existsb isHelp (tail args) = false -> exists r, parseArgs cfg sys args = Returned r) /\
  (helpAfterLang (tail args) = false ->
   (parseArgs cfg sys args = Thrown (printHelp cfg) helpException <->
    existsb isHelp (tail args) = true)).
Proof.
  intros Hmax. split; [apply parseArgs_total; exact Hmax|]. split; [|split].
  - intros out e. apply parseArgs_thrown_help. exact Hmax.
  - intros Hnone. destruct (parseArgs_total args Hmax) as [Hr|Ht]; [exact Hr|].
    apply parseArgs_thrown_help in Ht; [congruence|exact Hmax].
  - intros Hafter. split.
    + apply parseArgs_thrown_help. exact Hmax.
    + intros Hhelp. apply parseArgs_thrown; [exact Hmax|].
      exact (scanFrom_help_reached _ _ _ _ _ (Nat.le_refl _) Hafter Hhelp).
Qed.

(** The file is the last value that the loop assigns to it; in
    particular the last argument, unless it comes directly after a [--lang],
    is the file, whatever came before it. *)
Lemma last_assignment_wins (args : list string) :
  size args <= INT_MAX ->
  (forall r, parseArgs cfg sys args = Returned r ->
             mindMapFile r = default EmptyString (last (positionals args))) /\
  (forall prog before p,
      args = prog :: before ++ [p] ->
      existsb isHelp (before ++ [p]) = false ->
      last before <> Some "--lang" ->
      exists r, parseArgs cfg sys args = Returned r /\ mindMapFile r = p /\
                startupFile r = if QStr.isEmpty p then None else Some p).
Proof.
  intros Hmax. split.
  - intros r Hr. destruct (parseArgs_returned args r Hmax Hr) as (st & Hs & Hfile & _).
    rewrite Hfile. unfold positionals.
    exact (scanFrom_positionals _ _ _ _ _ _ (Nat.le_refl _) Hs).
  - intros prog before p -> Hhelp Hlast.
    destruct (scanFrom_last (size (prog :: before ++ [p])) p (length before) before 1 initial)
      as (st & Hs & Hfile); [lia|lia|unfold size; simpl length; lia|exact Hhelp|exact Hlast|].
    destruct (parseArgs_of_returned _ st Hmax Hs) as (r & Hr & Hrf & _).
    exists r. split; [exact Hr|]. unfold startupFile. rewrite Hrf, Hfile.
    split; reflexivity.
Qed.

(** X2. The program name is never examined: two command lines that differ
    in [argv[0]] only are parsed alike. *)
Theorem parseArgs_ignores_program_name (prog prog' : string) (rest : list string) :
  size (prog :: rest) <= INT_MAX ->
  parseArgs cfg sys (prog :: rest) = parseArgs cfg sys (prog' :: rest).
Proof.
  intros Hmax. unfold parseArgs.
  rewrite (parseArgs_scan (prog :: rest) Hmax).
  rewrite (parseArgs_scan (prog' :: rest)) by exact Hmax.
  reflexivity.
Qed.

(** X3. After file names, the first [-h] or [--help] ends the scan: whatever
    follows it is not examined, the usage text is all that is written and
    no translation is loaded. *)
Theorem help_stops_the_scan (prog h : string) (files rest : list string) :
  size (prog :: files ++ h :: rest) <= INT_MAX ->
  existsb isOption files = false -> isHelp h = true ->
  parseArgs cfg sys (prog :: files ++ h :: rest) = Thrown (printHelp cfg) helpException.
Proof.
  intros Hmax Hfiles Hh. apply parseArgs_thrown; [exact Hmax|].
  simpl tail. rewrite scanFrom_files by exact Hfiles.
  simpl scanFrom. rewrite Hh. reflexivity.
Qed.

(** X4. The value of a [--lang] in first position is not examined: whatever
    the argument after it is, also [-h], [--help] or [--lang], it becomes
    the language, and the file names after it are read as usual. *)
Theorem lang_value_not_examined (prog code : string) (rest : list string) :
  size (prog :: "--lang" :: code :: rest) <= INT_MAX ->
  existsb isOption rest = false ->
  exists r, parseArgs cfg sys (prog :: "--lang" :: code :: rest) = Returned r /\
            requestedLang r = code /\
            mindMapFile r = default EmptyString (last rest).
Proof.
  intros Hmax Hrest.
  assert (Hs : scanFrom cfg (size (prog :: "--lang" :: code :: rest)) 1
                 (tail (prog :: "--lang" :: code :: rest)) initial =
               Returned {| lang := code;
                           m_mindMapFile := default EmptyString (last rest) |}).
  { simpl tail. rewrite scanFrom_lang.
    destruct (Z.ltb_spec (1 + 1) (size (prog :: "--lang" :: code :: rest))) as [_|Hge];
      [|unfold size in Hge; simpl length in Hge; lia].
    rewrite scanFrom_files_only by exact Hrest. reflexivity. }
  destruct (parseArgs_of_returned _ _ Hmax Hs) as (r & Hr & Hfile & Hlang).
  exists r. split; [exact Hr|]. split; assumption.
Qed.

(** X5. An empty language code is the same as no [--lang] at all: the
    system locale is used, and the file is the same. *)
Theorem empty_lang_is_no_lang (prog : string) (rest : list string) :
  size (prog :: "--lang" :: EmptyString :: rest) <= INT_MAX ->
  existsb isOption rest = false ->
  parseArgs cfg sys (prog :: "--lang" :: EmptyString :: rest) = parseArgs cfg sys (prog :: rest).
Proof.
  intros Hmax Hrest. unfold parseArgs.
  rewrite (parseArgs_scan _ Hmax).
  rewrite (parseArgs_scan (prog :: rest))
    by (unfold size in *; simpl length in *; lia).
  simpl tail. rewrite scanFrom_lang.
  destruct (Z.ltb_spec (1 + 1) (size (prog :: "--lang" :: EmptyString :: rest))) as [_|Hge];
    [|unfold size in Hge; simpl length in Hge; lia].
  rewrite !scanFrom_files_only by exact Hrest. reflexivity.
Qed.

Lemma scanFrom_from_arguments n k : forall l i st st',
  (length l <= k)%nat ->
  scanFrom cfg n i l st = Returned st' ->
  (m_mindMapFile st' = m_mindMapFile st \/ m_mindMapFile st' ∈ l) /\
  (lang st' = lang st \/ lang st' ∈ l).
Proof.
  induction k as [|k IH]; intros l i st st' Hk Hs.
  - destruct l; [|simpl in Hk; lia]. simpl in Hs. injection Hs as <-. auto.
  - destruct l as [|a rest]; [simpl in Hs; injection Hs as <-; auto|].
    simpl in Hs. destruct (isHelp a); [discriminate|].
    destruct (String.eqb a "--lang" && (i + i <? n)).
    + destruct rest as [|code rest']; [discriminate|].
      apply IH in Hs; [|simpl in Hk; lia]. simpl in Hs.
      destruct Hs as [[Hf|Hf] [Hl|Hl]]; split;
        solve [left; assumption
              |right; rewrite Hl; apply elem_of_cons; right; apply elem_of_cons; left; reflexivity
              |right; do 2 (apply elem_of_cons; right); assumption].
    + apply IH in Hs; [|simpl in Hk; lia]. simpl in Hs.
      destruct Hs as [[Hf|Hf] [Hl|Hl]]; split;
        solve [left; assumption
              |right; rewrite Hf; apply elem_of_cons; left; reflexivity
              |right; apply elem_of_cons; right; assumption].
Qed.

(** X6. Parsing makes nothing up: the file and the language it returns are
    arguments given after the program name, or are empty. *)
Theorem parse_results_are_arguments (args : list string) (r : Parsed) :
  size args <= INT_MAX -> parseArgs cfg sys args = Returned r ->
  (mindMapFile r = EmptyString \/ mindMapFile r ∈ tail args) /\
  (requestedLang r = EmptyString \/ requestedLang r ∈ tail args).
Proof.
  intros Hmax Hr. destruct (parseArgs_returned args r Hmax Hr) as (st & Hs & -> & ->).
  exact (scanFrom_from_arguments _ _ _ _ _ _ (Nat.le_refl _) Hs).
Qed.

End CommandLineFacts.

(** ** The document and its history *)

Section MindMapFacts.
Import MindMap.
















End MindMapFacts.

(** ** The driver *)

Section DriverFacts.
Import Driver.
Context {M : Type} `{Mediator.Ops M}.
Context (cfg : Config) (user : User).

Ltac run := unfold effectsOf, mediatorAfter, runState, Driver.saveMindMap, Driver.saveMindMapAs,
  Driver.openMindMap, doOpenMindMap, showBackgroundColorDialog, showExportToPNGDialog,
  showNotSavedDialog, showMessageBox, loadRecentPath, saveRecentPath, emit, callVoid, call,
  effect, bind, ret, start; simpl.

(** The effects of the requests made from the export dialog. *)
Lemma exportRequests_effects rs : forall w,
  effects (snd (exportRequests rs w)) =
  effects w ++ map (fun r => Called (CallExportToPNG r)) rs.
Proof.
  induction rs as [|r rs IH]; intros w; simpl.
  - rewrite app_nil_r. reflexivity.
  - unfold bind, callVoid, call. simpl. rewrite IH. simpl.
    rewrite <- app_assoc. reflexivity.
Qed.

Lemma effectsOf_SaveMindMap m recent :
  effectsOf cfg user SaveMindMap m recent =
  [Logged LogDebug "Save.."; Called CallSaveMindMap] ++
  (if fst (Mediator.saveMindMap m)
   then [EnableSave false; ActionTriggered MindMapSaved]
   else [Logged LogError (tr user "Failed to save file.");
         MessageBox (tr user "Failed to save file.");
         ActionTriggered MindMapSaveFailed]).
Proof. run. destruct (Mediator.saveMindMap m) as [[] m']; reflexivity. Qed.

Lemma mediatorAfter_SaveMindMap m recent :
  mediatorAfter cfg user SaveMindMap m recent = snd (Mediator.saveMindMap m).
Proof. run. destruct (Mediator.saveMindMap m) as [[] m']; reflexivity. Qed.

Lemma effectsOf_ShowSaveAsDialog m recent :
  effectsOf cfg user ShowSaveAsDialog m recent =
  Logged LogDebug "Save as.." ::
  (if QStr.isEmpty (askSaveFileName cfg user) then []
   else
     let fileName := withExtension cfg (askSaveFileName cfg user) in
     Called (CallSaveMindMapAs fileName) ::
     (if fst (Mediator.saveMindMapAs fileName m)
      then [Logged LogDebug (tr user "File '" +:+ fileName +:+ tr user "' saved.");
            ActionTriggered MindMapSavedAs]
      else [Logged LogError (tr user "Failed to save file as '" +:+ fileName +:+ "'.");
            MessageBox (tr user "Failed to save file as '" +:+ fileName +:+ "'.");
            ActionTriggered MindMapSaveAsFailed])).
Proof.
  run. destruct (QStr.isEmpty (askSaveFileName cfg user)); [reflexivity|].
  simpl. destruct (Mediator.saveMindMapAs _ m) as [[] m']; reflexivity.
Qed.

Lemma mediatorAfter_ShowSaveAsDialog m recent :
  mediatorAfter cfg user ShowSaveAsDialog m recent =
  if QStr.isEmpty (askSaveFileName cfg user) then m
  else snd (Mediator.saveMindMapAs (withExtension cfg (askSaveFileName cfg user)) m).
Proof.
  run. destruct (QStr.isEmpty (askSaveFileName cfg user)); [reflexivity|].
  simpl. destruct (Mediator.saveMindMapAs _ m) as [[] m']; reflexivity.
Qed.

Lemma effectsOf_ShowOpenDialog m recent :
  effectsOf cfg user ShowOpenDialog m recent =
  let fileName := askOpenFileName cfg user (default (homeLocation user) recent) in
  Logged LogDebug "Open file" ::
  (if QStr.isEmpty fileName then []
   else
     Logged LogDebug ("Opening '" +:+ fileName) :: Called (CallOpenMindMap fileName) ::
     (if fst (Mediator.openMindMap fileName m)
      then [DisableUndoAndRedo; SetSaveActionStatesOnOpenedMindMap;
            ActionTriggered MindMapOpened]
      else [])).
Proof.
  run. destruct (QStr.isEmpty _); [reflexivity|].
  simpl. destruct (Mediator.openMindMap _ m) as [[] m']; reflexivity.
Qed.

Lemma effectsOf_ShowBackgroundColorDialog m recent :
  effectsOf cfg user ShowBackgroundColorDialog m recent =
  (if Qt.isValid (getColor user Qt.white)
   then [Called (CallSetBackgroundColor (getColor user Qt.white))] else []) ++
  [ActionTriggered BackgroundColorChanged].
Proof. run. destruct (Qt.isValid _); reflexivity. Qed.

Lemma mediatorAfter_ShowBackgroundColorDialog m recent :
  mediatorAfter cfg user ShowBackgroundColorDialog m recent =
  if Qt.isValid (getColor user Qt.white)
  then Mediator.setBackgroundColor (getColor user Qt.white) m else m.
Proof. run. destruct (Qt.isValid _); reflexivity. Qed.

Lemma effectsOf_ShowExportToPNGDialog m recent :
  effectsOf cfg user ShowExportToPNGDialog m recent =
  let size := fst (Mediator.zoomForExport m) in
  [Called CallZoomForExport; ExportDialogSetImageSize size; ExportDialogExec] ++
  map (fun r => Called (CallExportToPNG r)) (exportDialogExec user size) ++
  [ActionTriggered ExportedToPNG].
Proof.
  run. destruct (Mediator.zoomForExport m) as [size m']. simpl.
  match goal with |- context [exportRequests ?rs ?w] =>
    pose proof (exportRequests_effects rs w) as E;
    destruct (exportRequests rs w) as [[] w'] end.
  simpl in *. rewrite E. reflexivity.
Qed.

Lemma effectsOf_ShowNotSavedDialog m recent :
  effectsOf cfg user ShowNotSavedDialog m recent =
  NotSavedQuestion (tr user "The mind map has been modified.")
    (tr user "Do you want to save your changes?") ::
  if notSavedDialogExec user =? Qt.Save then [ActionTriggered NotSavedDialogAccepted]
  else if notSavedDialogExec user =? Qt.Discard then [ActionTriggered NotSavedDialogDiscarded]
  else if notSavedDialogExec user =? Qt.Cancel then [ActionTriggered NotSavedDialogCanceled]
  else [].
Proof.
  run. destruct (_ =? Qt.Save); [reflexivity|].
  destruct (_ =? Qt.Discard); [reflexivity|].
  destruct (_ =? Qt.Cancel); reflexivity.
Qed.

Lemma mediatorAfter_ShowNotSavedDialog m recent :
  mediatorAfter cfg user ShowNotSavedDialog m recent = m.
Proof.
  run. destruct (_ =? Qt.Save); [reflexivity|].
  destruct (_ =? Qt.Discard); [reflexivity|].
  destruct (_ =? Qt.Cancel); reflexivity.
Qed.

(** The actions that one run of [runState] submits. *)
Lemma submitted_runState state m recent :
  submitted (effectsOf cfg user state m recent) =
  match state with
  | Edit | InitializeNewMindMap | TryCloseWindow | Exit => []
  | SaveMindMap =>
      if fst (Mediator.saveMindMap m) then [MindMapSaved] else [MindMapSaveFailed]
  | ShowOpenDialog =>
      let fileName := askOpenFileName cfg user (default (homeLocation user) recent) in
      if QStr.isEmpty fileName then []
      else if fst (Mediator.openMindMap fileName m) then [MindMapOpened] else []
  | ShowSaveAsDialog =>
      if QStr.isEmpty (askSaveFileName cfg user) then []
      else if fst (Mediator.saveMindMapAs (withExtension cfg (askSaveFileName cfg user)) m)
           then [MindMapSavedAs] else [MindMapSaveAsFailed]
  | ShowBackgroundColorDialog => [BackgroundColorChanged]
  | ShowExportToPNGDialog => [ExportedToPNG]
  | ShowNotSavedDialog =>
      if notSavedDialogExec user =? Qt.Save then [NotSavedDialogAccepted]
      else if notSavedDialogExec user =? Qt.Discard then [NotSavedDialogDiscarded]
      else if notSavedDialogExec user =? Qt.Cancel then [NotSavedDialogCanceled]
      else []
  end.
Proof.
  destruct state; try reflexivity.
  - rewrite effectsOf_SaveMindMap. destruct (fst _); reflexivity.
  - rewrite effectsOf_ShowOpenDialog. cbv zeta.
    destruct (QStr.isEmpty _); [reflexivity|]. destruct (fst _); reflexivity.
  - rewrite effectsOf_ShowSaveAsDialog.
    destruct (QStr.isEmpty _); [reflexivity|]. cbv zeta. destruct (fst _); reflexivity.
  - rewrite effectsOf_ShowBackgroundColorDialog. destruct (Qt.isValid _); reflexivity.
  - rewrite effectsOf_ShowExportToPNGDialog. cbv zeta. unfold submitted.
    simpl. rewrite omap_app. simpl.
    induction (exportDialogExec user _) as [|r rs IH]; [reflexivity|exact IH].
  - rewrite effectsOf_ShowNotSavedDialog.
    destruct (_ =? Qt.Save); [reflexivity|].
    destruct (_ =? Qt.Discard); [reflexivity|].
    destruct (_ =? Qt.Cancel); reflexivity.
Qed.

(** The process is told to exit in state [Exit] only. *)
Lemma exits_runState state m recent :
  exits (effectsOf cfg user state m recent) =
  match state with Exit => [Qt.EXIT_SUCCESS] | _ => [] end.
Proof.
  destruct state; try reflexivity.
  - rewrite effectsOf_SaveMindMap. destruct (fst _); reflexivity.
  - rewrite effectsOf_ShowOpenDialog. cbv zeta.
    destruct (QStr.isEmpty _); [reflexivity|]. destruct (fst _); reflexivity.
  - rewrite effectsOf_ShowSaveAsDialog.
    destruct (QStr.isEmpty _); [reflexivity|]. cbv zeta. destruct (fst _); reflexivity.
  - rewrite effectsOf_ShowBackgroundColorDialog. destruct (Qt.isValid _); reflexivity.
  - rewrite effectsOf_ShowExportToPNGDialog. cbv zeta. unfold exits.
    simpl. rewrite omap_app. simpl.
    induction (exportDialogExec user _) as [|r rs IH]; [reflexivity|exact IH].
  - rewrite effectsOf_ShowNotSavedDialog.
    destruct (_ =? Qt.Save); [reflexivity|].
    destruct (_ =? Qt.Discard); [reflexivity|].
    destruct (_ =? Qt.Cancel); reflexivity.
Qed.

Lemma calls_exports (rs : list ExportRequest) :
  calls (map (fun r => Called (CallExportToPNG r)) rs) = map CallExportToPNG rs.
Proof. induction rs as [|r rs IH]; [reflexivity|]. simpl. f_equal. exact IH. Qed.

(** The calls that one run of [runState] makes into the mediator. *)
Lemma calls_runState state m recent :
  calls (effectsOf cfg user state m recent) =
  match state with
  | Edit | TryCloseWindow | Exit | ShowNotSavedDialog => []
  | InitializeNewMindMap => [CallInitializeNewMindMap]
  | SaveMindMap => [CallSaveMindMap]
  | ShowOpenDialog =>
      let fileName := askOpenFileName cfg user (default (homeLocation user) recent) in
      if QStr.isEmpty fileName then [] else [CallOpenMindMap fileName]
  | ShowSaveAsDialog =>
      if QStr.isEmpty (askSaveFileName cfg user) then []
      else [CallSaveMindMapAs (withExtension cfg (askSaveFileName cfg user))]
  | ShowBackgroundColorDialog =>
      if Qt.isValid (getColor user Qt.white)
      then [CallSetBackgroundColor (getColor user Qt.white)] else []
  | ShowExportToPNGDialog =>
      CallZoomForExport ::
      map CallExportToPNG (exportDialogExec user (fst (Mediator.zoomForExport m)))
  end.
Proof.
  destruct state; try reflexivity.
  - rewrite effectsOf_SaveMindMap. destruct (fst _); reflexivity.
  - rewrite effectsOf_ShowOpenDialog. cbv zeta.
    destruct (QStr.isEmpty _); [reflexivity|]. destruct (fst _); reflexivity.
  - rewrite effectsOf_ShowSaveAsDialog.
    destruct (QStr.isEmpty _); [reflexivity|]. cbv zeta. destruct (fst _); reflexivity.
  - rewrite effectsOf_ShowBackgroundColorDialog. destruct (Qt.isValid _); reflexivity.
  - rewrite effectsOf_ShowExportToPNGDialog. cbv zeta. unfold calls.
    simpl. rewrite omap_app. simpl. f_equal. rewrite app_nil_r.
    apply calls_exports.
  - rewrite effectsOf_ShowNotSavedDialog.
    destruct (_ =? Qt.Save); [reflexivity|].
    destruct (_ =? Qt.Discard); [reflexivity|].
    destruct (_ =? Qt.Cancel); reflexivity.
Qed.

(** The message boxes that one run of [runState] shows. *)
Lemma messages_runState state m recent :
  messages (effectsOf cfg user state m recent) =
  match state with
  | SaveMindMap =>
      if fst (Mediator.saveMindMap m) then [] else [tr user "Failed to save file."]
  | ShowSaveAsDialog =>
      let fileName := withExtension cfg (askSaveFileName cfg user) in
      if QStr.isEmpty (askSaveFileName cfg user) then []
      else if fst (Mediator.saveMindMapAs fileName m) then []
           else [tr user "Failed to save file as '" +:+ fileName +:+ "'."]
  | _ => []
  end.
Proof.
  destruct state; try reflexivity.
  - rewrite effectsOf_SaveMindMap. destruct (fst _); reflexivity.
  - rewrite effectsOf_ShowOpenDialog. cbv zeta.
    destruct (QStr.isEmpty _); [reflexivity|]. destruct (fst _); reflexivity.
  - rewrite effectsOf_ShowSaveAsDialog.
    destruct (QStr.isEmpty _); [reflexivity|]. cbv zeta. destruct (fst _); reflexivity.
  - rewrite effectsOf_ShowBackgroundColorDialog. destruct (Qt.isValid _); reflexivity.
  - rewrite effectsOf_ShowExportToPNGDialog. cbv zeta. unfold messages.
    simpl. rewrite omap_app. simpl. rewrite app_nil_r.
    induction (exportDialogExec user _) as [|r rs IH]; [reflexivity|exact IH].
  - rewrite effectsOf_ShowNotSavedDialog.
    destruct (_ =? Qt.Save); [reflexivity|].
    destruct (_ =? Qt.Discard); [reflexivity|].
    destruct (_ =? Qt.Cancel); reflexivity.
Qed.

Lemma length_append (s t : string) :
  String.length (s +:+ t) = (String.length s + String.length t)%nat.
Proof. induction s as [|c s IH]; simpl; [reflexivity|rewrite IH; reflexivity]. Qed.

Lemma substring_whole (t : string) : substring 0 (String.length t) t = t.
Proof. induction t as [|c t IH]; simpl; [reflexivity|rewrite IH; reflexivity]. Qed.

Lemma substring_append (s t : string) :
  substring (String.length s) (String.length t) (s +:+ t) = t.
Proof. induction s as [|c s IH]; simpl; [apply substring_whole|exact IH]. Qed.

Lemma endsWith_append (s t : string) : QStr.endsWith (s +:+ t) t = true.
Proof.
  unfold QStr.endsWith. rewrite length_append.
  apply andb_true_iff. split; [apply Nat.leb_le; lia|].
  replace (String.length s + String.length t - String.length t)%nat
    with (String.length s) by lia.
  rewrite substring_append. apply String.eqb_refl.
Qed.

Lemma withExtension_endsWith fileName :
  QStr.endsWith (withExtension cfg fileName) (FILE_EXTENSION cfg) = true.
Proof.
  unfold withExtension.
  destruct (QStr.endsWith fileName (FILE_EXTENSION cfg)) eqn:E; simpl;
    [exact E|apply endsWith_append].
Qed.

(** C9. Every file name that a run of the driver passes to
    [Mediator::saveMindMapAs] ends with the file extension; when the
    save-as dialog is confirmed, the name passed is the chosen name, with
    the extension appended if it did not end with it. *)
Theorem C9_save_as_extension (m : M) (recent : option string) :
  (forall state fileName,
      CallSaveMindMapAs fileName ∈ calls (effectsOf cfg user state m recent) ->
      QStr.endsWith fileName (FILE_EXTENSION cfg) = true) /\
  (QStr.isEmpty (askSaveFileName cfg user) = false ->
   calls (effectsOf cfg user ShowSaveAsDialog m recent) =
   [CallSaveMindMapAs
      (if QStr.endsWith (askSaveFileName cfg user) (FILE_EXTENSION cfg)
       then askSaveFileName cfg user
       else askSaveFileName cfg user +:+ FILE_EXTENSION cfg)]).
Proof.
  split.
  - intros state fileName Hin. rewrite calls_runState in Hin.
    destruct state; cbv zeta in Hin;
      repeat match type of Hin with
             | context [if ?c then _ else _] => destruct c
             end;
      try solve [repeat (apply elem_of_cons in Hin as [Hin|Hin]; [discriminate|]);
                 inversion Hin].
    + apply elem_of_cons in Hin as [E|Hin]; [|inversion Hin].
      injection E as ->. apply withExtension_endsWith.
    + apply elem_of_cons in Hin as [E|Hin]; [discriminate|].
      apply list_elem_of_In, in_map_iff in Hin as (r & E & _). discriminate.
  - intros Hne. rewrite calls_runState, Hne. unfold withExtension.
    destruct (QStr.endsWith _ _); reflexivity.
Qed.

(** C1, as amended. One run of the driver submits at most one action.
    It submits exactly one in [SaveMindMap], [ShowBackgroundColorDialog]
    and [ShowExportToPNGDialog], in [ShowNotSavedDialog] for each of the
    three buttons, in [ShowSaveAsDialog] once a file name was chosen, and
    [MindMapOpened] after a successful open; it submits none in [Edit],
    [InitializeNewMindMap], [TryCloseWindow] and [Exit]. Dismissing the
    colour, export or not-saved dialog still submits its action, which
    takes the machine to [Edit], and leaves the document alone. *)
Theorem C1_actions_per_state (m : M) (recent : option string) :
  (forall state, (length (submitted (effectsOf cfg user state m recent)) <= 1)%nat) /\
  (forall state,
      state ∈ [SaveMindMap; ShowBackgroundColorDialog; ShowExportToPNGDialog] ->
      length (submitted (effectsOf cfg user state m recent)) = 1%nat) /\
  (notSavedDialogExec user ∈ [Qt.Save; Qt.Discard; Qt.Cancel] ->
   length (submitted (effectsOf cfg user ShowNotSavedDialog m recent)) = 1%nat) /\
  (QStr.isEmpty (askSaveFileName cfg user) = false ->
   length (submitted (effectsOf cfg user ShowSaveAsDialog m recent)) = 1%nat) /\
  (forall fileName,
      fileName = askOpenFileName cfg user (default (homeLocation user) recent) ->
      QStr.isEmpty fileName = false -> fst (Mediator.openMindMap fileName m) = true ->
      submitted (effectsOf cfg user ShowOpenDialog m recent) = [MindMapOpened]) /\
  (forall state,
      state ∈ [Edit; InitializeNewMindMap; TryCloseWindow; Exit] ->
      submitted (effectsOf cfg user state m recent) = []) /\
  (Qt.isValid (getColor user Qt.white) = false ->
   submitted (effectsOf cfg user ShowBackgroundColorDialog m recent) = [BackgroundColorChanged] /\
   mediatorAfter cfg user ShowBackgroundColorDialog m recent = m) /\
  (exportDialogExec user (fst (Mediator.zoomForExport m)) = [] ->
   submitted (effectsOf cfg user ShowExportToPNGDialog m recent) = [ExportedToPNG] /\
   calls (effectsOf cfg user ShowExportToPNGDialog m recent) = [CallZoomForExport]) /\
  (notSavedDialogExec user = Qt.Cancel ->
   submitted (effectsOf cfg user ShowNotSavedDialog m recent) = [NotSavedDialogCanceled] /\
   mediatorAfter cfg user ShowNotSavedDialog m recent = m) /\
  (forall machine guards action,
      action ∈ [BackgroundColorChanged; ExportedToPNG; NotSavedDialogCanceled] ->
      StateMachine.current (StateMachine.transition machine action guards) = Edit).
Proof.
  split; [|split; [|split; [|split; [|split; [|split; [|split; [|split; [|split]]]]]]]].
  - intros state. rewrite submitted_runState.
    destruct state; cbv zeta;
      repeat match goal with
             | |- context [if ?c then _ else _] => destruct c
             end; simpl; lia.
  - intros state Hin. rewrite submitted_runState.
    apply list_elem_of_In in Hin. simpl in Hin.
    destruct Hin as [<-|[<-|[<-|[]]]]; [destruct (fst _)|..]; reflexivity.
  - intros Hin. rewrite submitted_runState.
    apply list_elem_of_In in Hin. simpl in Hin.
    destruct Hin as [E|[E|[E|[]]]]; rewrite <- E; reflexivity.
  - intros Hne. rewrite submitted_runState, Hne. destruct (fst _); reflexivity.
  - intros fileName -> Hne Hok. rewrite submitted_runState. cbv zeta.
    rewrite Hne, Hok. reflexivity.
  - intros state Hin. rewrite submitted_runState.
    apply list_elem_of_In in Hin. simpl in Hin.
    destruct Hin as [<-|[<-|[<-|[<-|[]]]]]; reflexivity.
  - intros Hinvalid. split; [rewrite submitted_runState; reflexivity|].
    rewrite mediatorAfter_ShowBackgroundColorDialog, Hinvalid. reflexivity.
  - intros Hnone. split; [rewrite submitted_runState; reflexivity|].
    rewrite calls_runState, Hnone. reflexivity.
  - intros Hcancel. split; [rewrite submitted_runState, Hcancel; reflexivity|].
    apply mediatorAfter_ShowNotSavedDialog.
  - intros machine guards action Hin.
    apply list_elem_of_In in Hin. simpl in Hin.
    destruct Hin as [<-|[<-|[<-|[]]]]; reflexivity.
Qed.

(** C4. A run of the driver tells the process to exit in state [Exit]
    only, and then with [EXIT_SUCCESS]; parsing the command line either
    returns or throws the exception of [--help], and throws only when
    [-h] or [--help] is among the arguments. *)
Theorem C4_exit_only_deliberate (sys : Platform) (m : M) (recent : option string)
    (args : list string) :
  CommandLine.size args <= CommandLine.INT_MAX ->
  (forall state,
      exits (effectsOf cfg user state m recent) =
      if decide (state = Exit) then [Qt.EXIT_SUCCESS] else []) /\
  ((exists r, CommandLine.parseArgs cfg sys args = CommandLine.Returned r) \/
   CommandLine.parseArgs cfg sys args =
   CommandLine.Thrown (CommandLine.printHelp cfg) CommandLine.helpException) /\
  (forall out e,
      CommandLine.parseArgs cfg sys args = CommandLine.Thrown out e ->
      existsb CommandLine.isHelp (tail args) = true).
Proof.
  intros Hmax. split; [|split].
  - intros state. rewrite exits_runState. destruct state; reflexivity.
  - apply parseArgs_total. exact Hmax.
  - intros out e. apply parseArgs_thrown_help. exact Hmax.
Qed.

End DriverFacts.

(** ** The driver on the document *)

Section DriverOnMindMap.
Import Driver.
Context (cfg : Config) (user : User).

Lemma exportRequests_mediator rs : forall w : World (M := MindMap.T),
  mediator (snd (exportRequests rs w)) = mediator w.
Proof.
  induction rs as [|r rs IH]; intros w; [reflexivity|].
  simpl. unfold bind, callVoid, call. simpl. rewrite IH. reflexivity.
Qed.

Lemma saveMindMapAs_failed path (m : MindMap.T) :
  fst (MindMap.saveMindMapAs path m) = false -> snd (MindMap.saveMindMapAs path m) = m.
Proof.
  unfold MindMap.saveMindMapAs.
  destruct (MindMap.save _ _ _); [discriminate|reflexivity].
Qed.

Lemma saveMindMap_failed (m : MindMap.T) :
  fst (MindMap.saveMindMap m) = false -> snd (MindMap.saveMindMap m) = m.
Proof.
  unfold MindMap.saveMindMap.
  destruct (MindMap.filePath _); [apply saveMindMapAs_failed|reflexivity].
Qed.

Lemma mediatorAfter_export (d : MindMap.T) recent :
  mediatorAfter cfg user ShowExportToPNGDialog d recent = d.
Proof.
  unfold mediatorAfter, runState, showExportToPNGDialog, bind, call, effect, emit.
  simpl.
  match goal with |- context [exportRequests ?rs ?w] =>
    pose proof (exportRequests_mediator rs w) as E;
    destruct (exportRequests rs w) as [[] w'] end.
  simpl in *. exact E.
Qed.

End DriverOnMindMap.

(** ** Saving and exporting *)

Section SaveAndExport.
Import Driver.
Context {M : Type} `{Mediator.Ops M}.
Context (cfg : Config) (user : User).

(** C3. When [Mediator::saveMindMap] fails the driver shows a message
    and submits [MindMapSaveFailed] and nothing else, and leaves the
    mediator as the failed call left it; when it succeeds the driver
    submits [MindMapSaved]. The same holds for save-as, once a file name
    was chosen, with [MindMapSaveAsFailed] and [MindMapSavedAs]. Neither
    run tells the process to exit. Both failure actions take the state
    machine to [Edit], and a failed save or save-as of the mediator
    leaves it, and so the document, unchanged. *)
Theorem C3_save_failure_recovered (m : M) (recent : option string) :
  (if fst (Mediator.saveMindMap m)
   then submitted (effectsOf cfg user SaveMindMap m recent) = [MindMapSaved]
   else submitted (effectsOf cfg user SaveMindMap m recent) = [MindMapSaveFailed] /\
        messages (effectsOf cfg user SaveMindMap m recent) = [tr user "Failed to save file."] /\
        mediatorAfter cfg user SaveMindMap m recent = snd (Mediator.saveMindMap m)) /\
  exits (effectsOf cfg user SaveMindMap m recent) = [] /\
  (QStr.isEmpty (askSaveFileName cfg user) = false ->
   let fileName := withExtension cfg (askSaveFileName cfg user) in
   if fst (Mediator.saveMindMapAs fileName m)
   then submitted (effectsOf cfg user ShowSaveAsDialog m recent) = [MindMapSavedAs]
   else submitted (effectsOf cfg user ShowSaveAsDialog m recent) = [MindMapSaveAsFailed] /\
        messages (effectsOf cfg user ShowSaveAsDialog m recent) =
          [tr user "Failed to save file as '" +:+ fileName +:+ "'."] /\
        mediatorAfter cfg user ShowSaveAsDialog m recent =
          snd (Mediator.saveMindMapAs fileName m)) /\
  exits (effectsOf cfg user ShowSaveAsDialog m recent) = [] /\
  (forall machine guards action,
      action ∈ [MindMapSaveFailed; MindMapSaveAsFailed] ->
      StateMachine.current (StateMachine.transition machine action guards) = Edit) /\
  (forall (d : MindMap.T) path,
      (fst (MindMap.saveMindMap d) = false -> snd (MindMap.saveMindMap d) = d) /\
      (fst (MindMap.saveMindMapAs path d) = false -> snd (MindMap.saveMindMapAs path d) = d)).
Proof.
  split; [|split; [|split; [|split; [|split]]]].
  - rewrite submitted_runState, messages_runState, mediatorAfter_SaveMindMap.
    destruct (fst (Mediator.saveMindMap m)); repeat split; reflexivity.
  - rewrite exits_runState. reflexivity.
  - intros Hne. cbv zeta.
    rewrite submitted_runState, messages_runState, mediatorAfter_ShowSaveAsDialog, Hne.
    cbv zeta. destruct (fst (Mediator.saveMindMapAs _ m)); repeat split; reflexivity.
  - rewrite exits_runState. reflexivity.
  - intros machine guards action Hin.
    apply list_elem_of_In in Hin. simpl in Hin.
    destruct Hin as [<-|[<-|[]]]; reflexivity.
  - intros d path. split; [apply saveMindMap_failed|apply saveMindMapAs_failed].
Qed.

(** C5. Whatever the user does in the export dialog, the run of
    [ShowExportToPNGDialog] submits [ExportedToPNG] and nothing else, as
    its last effect and after the dialog has closed; the only calls that
    reach the mediator are [zoomForExport] and one [exportToPNG] for each
    request made in the dialog. [exportToPNG] changes neither the
    document nor the undo and redo stacks, and after the run the
    mediator is as it was. *)
Theorem C5_export_completes (m : M) (recent : option string) :
  submitted (effectsOf cfg user ShowExportToPNGDialog m recent) = [ExportedToPNG] /\
  (exists before,
      effectsOf cfg user ShowExportToPNGDialog m recent =
      before ++ [ActionTriggered ExportedToPNG] /\ ExportDialogExec ∈ before) /\
  calls (effectsOf cfg user ShowExportToPNGDialog m recent) =
    CallZoomForExport ::
    map CallExportToPNG (exportDialogExec user (fst (Mediator.zoomForExport m))) /\
  (forall file size transparent (d : MindMap.T),
      MindMap.document (MindMap.exportToPNG file size transparent d) = MindMap.document d /\
      MindMap.history (MindMap.exportToPNG file size transparent d) = MindMap.history d) /\
  (forall d : MindMap.T, mediatorAfter cfg user ShowExportToPNGDialog d recent = d).
Proof.
  split; [|split; [|split; [|split]]].
  - rewrite submitted_runState. reflexivity.
  - rewrite effectsOf_ShowExportToPNGDialog. cbv zeta.
    eexists. split; [rewrite app_assoc; reflexivity|].
    apply elem_of_app. left. apply list_elem_of_In. simpl. auto.
  - rewrite calls_runState. reflexivity.
  - intros file size transparent d. split; reflexivity.
  - intros d. apply mediatorAfter_export.
Qed.

End SaveAndExport.

(** ** More about a run of the driver *)

Section RunFacts.
Import Driver Startup.
Context {M : Type} `{Mediator.Ops M}.
Context (cfg : Config) (user : User).

Ltac unfold_run := unfold effectsOf, mediatorAfter, recentAfter, scheduled, runState,
  Driver.saveMindMap, Driver.saveMindMapAs, Driver.openMindMap, openArgMindMap, doOpenMindMap,
  showBackgroundColorDialog, showExportToPNGDialog, showNotSavedDialog, showMessageBox,
  loadRecentPath, saveRecentPath, emit, callVoid, call, effect, bind, ret, start; simpl.

Lemma exportRequests_world rs : forall w : World (M := M),
  recentPath (snd (exportRequests rs w)) = recentPath w /\
  mediator (snd (exportRequests rs w)) = replay (map CallExportToPNG rs) (mediator w).
Proof.
  induction rs as [|r rs IH]; intros w; [split; reflexivity|].
  simpl. unfold bind, callVoid, call. simpl.
  destruct (IH {| mediator := Mediator.exportToPNG (exportFile r) (exportSize r)
                                (transparentBackground r) (mediator w);
                  recentPath := recentPath w;
                  effects := effects w ++ [Called (CallExportToPNG r)] |}) as [Hr Hm].
  split; [exact Hr|exact Hm].
Qed.

(** The key [recentPath] after a run. *)
Lemma recentAfter_runState state m recent :
  recentAfter cfg user state m recent =
  match state with
  | ShowOpenDialog =>
      let fileName := askOpenFileName cfg user (default (homeLocation user) recent) in
      if negb (QStr.isEmpty fileName) && fst (Mediator.openMindMap fileName m)
      then Some fileName else recent
  | _ => recent
  end.
Proof.
  destruct state; try reflexivity; unfold_run.
  - destruct (Mediator.saveMindMap m) as [[] m']; reflexivity.
  - destruct (QStr.isEmpty _); [reflexivity|]. simpl.
    destruct (Mediator.openMindMap _ m) as [[] m']; reflexivity.
  - destruct (QStr.isEmpty _); [reflexivity|]. simpl.
    destruct (Mediator.saveMindMapAs _ m) as [[] m']; reflexivity.
  - destruct (Qt.isValid _); reflexivity.
  - destruct (Mediator.zoomForExport m) as [size m']. simpl.
    match goal with |- context [exportRequests ?rs ?w] =>
      pose proof (proj1 (exportRequests_world rs w)) as E;
      destruct (exportRequests rs w) as [[] w'] end.
    simpl in *. exact E.
  - destruct (_ =? Qt.Save); [reflexivity|].
    destruct (_ =? Qt.Discard); [reflexivity|].
    destruct (_ =? Qt.Cancel); reflexivity.
Qed.

(** X8. Only an open that succeeded changes [recentPath], to the file that
    was opened; a dismissed dialog, a failed open and every other state
    leave the key alone (save-as included). *)
Theorem recent_path_only_after_open (state : State) (m : M) (recent : option string) :
  let fileName := askOpenFileName cfg user (default (homeLocation user) recent) in
  (submitted (effectsOf cfg user state m recent) = [MindMapOpened] ->
   recentAfter cfg user state m recent = Some fileName) /\
  (submitted (effectsOf cfg user state m recent) <> [MindMapOpened] ->
   recentAfter cfg user state m recent = recent).
Proof.
  cbv zeta. rewrite recentAfter_runState, submitted_runState.
  destruct state; cbv zeta; simpl;
    repeat match goal with
           | |- context [if ?c then _ else _] => destruct c; simpl
           end;
    split; intros Hs; try reflexivity; try discriminate; contradiction Hs; reflexivity.
Qed.

Lemma recent_path_only_after_open_aux (m : M) (recent : option string) :
  submitted (effectsOf cfg user ShowOpenDialog m recent) = [MindMapOpened] ->
  recentAfter cfg user ShowOpenDialog m recent =
  Some (askOpenFileName cfg user (default (homeLocation user) recent)).
Proof.
  rewrite recentAfter_runState, submitted_runState. cbv zeta.
  destruct (QStr.isEmpty _); [discriminate|]. destruct (fst _); [reflexivity|discriminate].
Qed.

(** X9. Where the file dialogs start. The open dialog starts at
    [recentPath], and at the home location while nothing was opened; so after
    an open that succeeded the next open dialog starts at the file that was
    opened. No other state reads the key: the save-as dialog always
    starts at the home location. *)
Theorem dialogs_start_paths (m m' : M) (recent : option string) :
  (forall state, state <> ShowOpenDialog ->
     effectsOf cfg user state m recent = effectsOf cfg user state m None /\
     mediatorAfter cfg user state m recent = mediatorAfter cfg user state m None) /\
  (let first := askOpenFileName cfg user (default (homeLocation user) recent) in
   let next := askOpenFileName cfg user first in
   submitted (effectsOf cfg user ShowOpenDialog m recent) = [MindMapOpened] ->
   calls (effectsOf cfg user ShowOpenDialog m'
            (recentAfter cfg user ShowOpenDialog m recent)) =
   if QStr.isEmpty next then [] else [CallOpenMindMap next]).
Proof.
  split.
  - intros state Hstate. destruct state; try contradiction; try (split; reflexivity).
    + rewrite !effectsOf_SaveMindMap, !mediatorAfter_SaveMindMap. split; reflexivity.
    + rewrite !effectsOf_ShowSaveAsDialog, !mediatorAfter_ShowSaveAsDialog. split; reflexivity.
    + rewrite !effectsOf_ShowBackgroundColorDialog, !mediatorAfter_ShowBackgroundColorDialog.
      split; reflexivity.
    + rewrite !effectsOf_ShowExportToPNGDialog. split; [reflexivity|].
      unfold_run. destruct (Mediator.zoomForExport m) as [size m0]. simpl.
      repeat match goal with |- context [exportRequests ?rs ?w] =>
        let E := fresh "E" in
        pose proof (proj2 (exportRequests_world rs w)) as E;
        destruct (exportRequests rs w) as [[] ?] end.
      simpl in *. congruence.
    + rewrite !effectsOf_ShowNotSavedDialog, !mediatorAfter_ShowNotSavedDialog.
      split; reflexivity.
  - cbv zeta. intros Hopened.
    rewrite (recent_path_only_after_open_aux m recent Hopened).
    rewrite calls_runState. reflexivity.
Qed.

(** X12. The action of a run is its last effect: nothing of the driver
    happens after the signal. *)
Theorem action_is_last_effect (state : State) (m : M) (recent : option string) (a : Action) :
  a ∈ submitted (effectsOf cfg user state m recent) ->
  last (effectsOf cfg user state m recent) = Some (ActionTriggered a).
Proof.
  rewrite submitted_runState.
  destruct state; cbv zeta; try (intros Hin; inversion Hin; fail).
  - rewrite effectsOf_SaveMindMap.
    destruct (fst _); intros Hin; apply list_elem_of_singleton in Hin as ->; reflexivity.
  - rewrite effectsOf_ShowOpenDialog. cbv zeta.
    destruct (QStr.isEmpty _); [intros Hin; inversion Hin|].
    destruct (fst _); intros Hin; [|inversion Hin].
    apply list_elem_of_singleton in Hin as ->. reflexivity.
  - rewrite effectsOf_ShowSaveAsDialog.
    destruct (QStr.isEmpty _); [intros Hin; inversion Hin|]. cbv zeta.
    destruct (fst _); intros Hin; apply list_elem_of_singleton in Hin as ->; reflexivity.
  - rewrite effectsOf_ShowBackgroundColorDialog.
    intros Hin. apply list_elem_of_singleton in Hin as ->.
    destruct (Qt.isValid _); reflexivity.
  - rewrite effectsOf_ShowExportToPNGDialog. cbv zeta.
    intros Hin. apply list_elem_of_singleton in Hin as ->.
    rewrite !app_assoc. apply last_snoc.
  - rewrite effectsOf_ShowNotSavedDialog.
    destruct (_ =? Qt.Save); [intros Hin; apply list_elem_of_singleton in Hin as ->; reflexivity|].
    destruct (_ =? Qt.Discard); [intros Hin; apply list_elem_of_singleton in Hin as ->; reflexivity|].
    destruct (_ =? Qt.Cancel); intros Hin; [|inversion Hin].
    apply list_elem_of_singleton in Hin as ->. reflexivity.
Qed.

(** X13. Each action is submitted from one state only, and a run submits
    none of the actions that [application.cpp] does not emit: the action of
    a run tells the state that was run. *)
Theorem action_tells_state (state : State) (m : M) (recent : option string) (a : Action) :
  a ∈ submitted (effectsOf cfg user state m recent) -> submitter a = Some state.
Proof.
  rewrite submitted_runState.
  destruct state; cbv zeta;
    repeat match goal with
           | |- context [if ?c then _ else _] => destruct c
           end;
    intros Hin; try (inversion Hin; fail);
    apply list_elem_of_singleton in Hin as ->; reflexivity.
Qed.

Lemma errorLogs_exports (rs : list ExportRequest) :
  errorLogs (map (fun r => Called (CallExportToPNG r)) rs) = [] /\
  boxes (map (fun r => Called (CallExportToPNG r)) rs) = [].
Proof. induction rs as [|r rs [IH1 IH2]]; split; auto. Qed.

(** X14. The boxes of a run. The only box that is not an error is the
    question of the not-saved dialog, shown in [ShowNotSavedDialog] and
    nowhere else; every other box shown carries a text that is also logged
    at error level, in the same order; and an error is logged exactly when a
    save or a save-as failed (a failed open logs and shows none). *)
Theorem boxes_are_question_or_error (state : State) (m : M) (recent : option string) :
  boxes (effectsOf cfg user state m recent) =
    (if decide (state = ShowNotSavedDialog)
     then [tr user "The mind map has been modified."] else []) ++
    errorLogs (effectsOf cfg user state m recent) /\
  (errorLogs (effectsOf cfg user state m recent) <> [] <->
   submitted (effectsOf cfg user state m recent) = [MindMapSaveFailed] \/
   submitted (effectsOf cfg user state m recent) = [MindMapSaveAsFailed]).
Proof.
  assert (Hlogs :
    errorLogs (effectsOf cfg user state m recent) =
    match state with
    | SaveMindMap =>
        if fst (Mediator.saveMindMap m) then [] else [tr user "Failed to save file."]
    | ShowSaveAsDialog =>
        let fileName := withExtension cfg (askSaveFileName cfg user) in
        if QStr.isEmpty (askSaveFileName cfg user) then []
        else if fst (Mediator.saveMindMapAs fileName m) then []
             else [tr user "Failed to save file as '" +:+ fileName +:+ "'."]
    | _ => []
    end).
  { destruct state; try reflexivity.
    - rewrite effectsOf_SaveMindMap. destruct (fst _); reflexivity.
    - rewrite effectsOf_ShowOpenDialog. cbv zeta.
      destruct (QStr.isEmpty _); [reflexivity|]. destruct (fst _); reflexivity.
    - rewrite effectsOf_ShowSaveAsDialog.
      destruct (QStr.isEmpty _); [reflexivity|]. cbv zeta. destruct (fst _); reflexivity.
    - rewrite effectsOf_ShowBackgroundColorDialog. destruct (Qt.isValid _); reflexivity.
    - rewrite effectsOf_ShowExportToPNGDialog. cbv zeta.
      unfold errorLogs. simpl. rewrite !omap_app.
      fold (errorLogs (map (fun r => Called (CallExportToPNG r))
                         (exportDialogExec user (fst (Mediator.zoomForExport m))))).
      rewrite (proj1 (errorLogs_exports _)). reflexivity.
    - rewrite effectsOf_ShowNotSavedDialog.
      destruct (_ =? Qt.Save); [reflexivity|].
      destruct (_ =? Qt.Discard); [reflexivity|].
      destruct (_ =? Qt.Cancel); reflexivity. }
  split.
  - rewrite Hlogs. destruct state; try reflexivity.
    + rewrite effectsOf_SaveMindMap. destruct (fst _); reflexivity.
    + rewrite effectsOf_ShowOpenDialog. cbv zeta.
      destruct (QStr.isEmpty _); [reflexivity|]. destruct (fst _); reflexivity.
    + rewrite effectsOf_ShowSaveAsDialog.
      destruct (QStr.isEmpty _); [reflexivity|]. cbv zeta. destruct (fst _); reflexivity.
    + rewrite effectsOf_ShowBackgroundColorDialog. destruct (Qt.isValid _); reflexivity.
    + rewrite effectsOf_ShowExportToPNGDialog. cbv zeta.
      unfold boxes. simpl. rewrite !omap_app.
      fold (boxes (map (fun r => Called (CallExportToPNG r))
                     (exportDialogExec user (fst (Mediator.zoomForExport m))))).
      rewrite (proj2 (errorLogs_exports _)). reflexivity.
    + rewrite effectsOf_ShowNotSavedDialog.
      destruct (_ =? Qt.Save); [reflexivity|].
      destruct (_ =? Qt.Discard); [reflexivity|].
      destruct (_ =? Qt.Cancel); reflexivity.
  - rewrite Hlogs, submitted_runState.
    destruct state; cbv zeta;
      repeat match goal with
             | |- context [if ?c then _ else _] => destruct c
             end;
      split; intros Hm;
        solve [contradiction Hm; reflexivity
              |destruct Hm as [Hm|Hm]; discriminate Hm
              |left; reflexivity|right; reflexivity|discriminate].
Qed.

Lemma substring_split (s : string) : forall m,
  (m <= String.length s)%nat ->
  s = substring 0 m s +:+ substring m (String.length s - m) s.
Proof.
  induction s as [|c s IH]; intros m Hm.
  - destruct m; [reflexivity|simpl in Hm; lia].
  - destruct m as [|m].
    + simpl. rewrite substring_whole. reflexivity.
    + simpl.
      change (String c s =
              String c (substring 0 m s +:+ substring m (String.length s - m) s)).
      f_equal. apply IH. simpl in Hm. lia.
Qed.

(** [endsWith] holds exactly of the strings that are some prefix
    followed by the suffix. *)
Lemma endsWith_iff (s t : string) :
  QStr.endsWith s t = true <-> exists p, s = p +:+ t.
Proof.
  split.
  - unfold QStr.endsWith. intros Hends.
    apply andb_true_iff in Hends as [Hle Heq].
    apply Nat.leb_le in Hle. apply String.eqb_eq in Heq.
    exists (substring 0 (String.length s - String.length t) s).
    pose proof (substring_split s (String.length s - String.length t)) as E.
    replace (String.length s - (String.length s - String.length t))%nat
      with (String.length t) in E by lia.
    rewrite Heq in E. apply E. lia.
  - intros [p ->]. apply endsWith_append.
Qed.

(** X16. The name given to [Mediator::saveMindMapAs] is the chosen name or
    the chosen name with the extension appended, never anything shorter; the
    chosen name is kept exactly when it is some prefix followed by the
    extension; and a name that went through once is kept as it is. *)
Theorem withExtension_appends_once (fileName : string) :
  (withExtension cfg fileName = fileName \/
   withExtension cfg fileName = fileName +:+ FILE_EXTENSION cfg) /\
  (withExtension cfg fileName = fileName <->
   exists p, fileName = p +:+ FILE_EXTENSION cfg) /\
  withExtension cfg (withExtension cfg fileName) = withExtension cfg fileName.
Proof.
  split; [|split].
  - unfold withExtension. destruct (QStr.endsWith _ _); simpl; auto.
  - rewrite <- endsWith_iff. unfold withExtension.
    destruct (QStr.endsWith fileName (FILE_EXTENSION cfg)) eqn:E; simpl.
    + split; reflexivity.
    + split; [|discriminate]. intros Heq.
      apply (f_equal String.length) in Heq. rewrite length_append in Heq.
      assert (Hext : FILE_EXTENSION cfg = EmptyString)
        by (destruct (FILE_EXTENSION cfg); [reflexivity|simpl in Heq; lia]).
      rewrite Hext in E. unfold QStr.endsWith in E. simpl in E.
      rewrite Nat.sub_0_r in E.
      assert (Hsub : forall n u, substring n 0 u = EmptyString).
      { intros n u. revert n. induction u as [|c u IHu]; intros [|n]; simpl; auto. }
      rewrite Hsub in E. discriminate.
  - unfold withExtension at 1. rewrite withExtension_endsWith. reflexivity.
Qed.

(** X7. Starting with a file on the command line. When the last argument
    is a file name, the timer of the constructor has
    [Mediator::openMindMap] called with that name, once, and without any
    dialog; [MindMapOpened] is submitted if the open succeeds, and a failed
    open shows no message. When parsing leaves the file empty nothing
    runs. *)
Theorem startup_opens_last_argument (sys : Platform) (prog p : string)
    (before : list string) (m : M) (recent : option string) :
  CommandLine.size (prog :: before ++ [p]) <= CommandLine.INT_MAX ->
  existsb CommandLine.isHelp (before ++ [p]) = false ->
  last before <> Some "--lang" ->
  exists r, CommandLine.parseArgs cfg sys (prog :: before ++ [p]) = CommandLine.Returned r /\
    let es := effects (snd (scheduled (CommandLine.mindMapFile r) (start m recent))) in
    if QStr.isEmpty p then es = []
    else calls es = [CallOpenMindMap p] /\
         submitted es = (if fst (Mediator.openMindMap p m) then [MindMapOpened] else []) /\
         messages es = [].
Proof.
  intros Hmax Hhelp Hlast.
  destruct (scanFrom_last cfg (CommandLine.size (prog :: before ++ [p])) p
              (length before) before 1 CommandLine.initial)
    as (st & Hs & Hfile);
    [lia|lia|unfold CommandLine.size; simpl length; lia|exact Hhelp|exact Hlast|].
  destruct (parseArgs_of_returned cfg sys _ st Hmax Hs) as (r & Hr & Hrf & _).
  exists r. split; [exact Hr|]. rewrite Hrf, Hfile. cbv zeta.
  unfold_run. destruct (QStr.isEmpty p); [reflexivity|]. simpl.
  destruct (Mediator.openMindMap p m) as [[] m0]; repeat split; reflexivity.
Qed.

End RunFacts.

(** ** The properties on concrete inputs *)

Section Evaluations.
Import CommandLine Driver.

(** C2. With [--lang fi] after a file name the test [(i + i) <
    args.size()] fails at index 2 of 4: no language is requested, and
    both [--lang] and [fi] are assigned to the file, [fi] last. In
    front of the file name the same two arguments are accepted. *)
Theorem C2_lang_after_file_ignored :
  parseArgs Sample.heimer Sample.platform ["heimer"; "plan.alz"; "--lang"; "fi"] =
  Returned {| mindMapFile := "fi";
              requestedLang := EmptyString;
              translation := None;
              console := [Log LogWarning "Failed to load translations for en_US"] |} /\
  positionals ["heimer"; "plan.alz"; "--lang"; "fi"] = ["plan.alz"; "--lang"; "fi"] /\
  parseArgs Sample.heimer Sample.platform ["heimer"; "--lang"; "fi"; "plan.alz"] =
  Returned {| mindMapFile := "plan.alz";
              requestedLang := "fi";
              translation := Some "fi";
              console := [Log LogInfo "Loaded translations for fi"] |}.
Proof. repeat split; reflexivity. Qed.

(** C10. With two file names and then [--lang fi], the guard
    [(i + i) < args.size()] fails at index 3 of 5 and the file that is opened
    at start-up is [fi], not the last file name [b.alz]; with the option
    in front of them, and without it, the last file name is the file. *)
Theorem C10_file_after_lang_misread :
  (exists r,
     parseArgs Sample.heimer Sample.platform ["heimer"; "a.alz"; "b.alz"; "--lang"; "fi"] =
     Returned r /\
     mindMapFile r = "fi" /\ startupFile r = Some "fi" /\ requestedLang r = EmptyString) /\
  (exists r,
     parseArgs Sample.heimer Sample.platform ["heimer"; "--lang"; "fi"; "a.alz"; "b.alz"] =
     Returned r /\
     mindMapFile r = "b.alz" /\ startupFile r = Some "b.alz" /\ requestedLang r = "fi") /\
  (exists r,
     parseArgs Sample.heimer Sample.platform ["heimer"; "a.alz"; "b.alz"] = Returned r /\
     mindMapFile r = "b.alz" /\ startupFile r = Some "b.alz").
Proof. repeat split; eexists; repeat split; reflexivity. Qed.

(** Against C1 as stated: a run of [Edit] or [Exit] submits no action,
    and neither does dismissing the save-as or the open dialog. *)
Lemma C1_no_action_submitted :
  submitted (effectsOf Sample.heimer Sample.dismissing Edit Sample.blank None) = [] /\
  submitted (effectsOf Sample.heimer Sample.dismissing Exit Sample.blank None) = [] /\
  submitted (effectsOf Sample.heimer Sample.dismissing ShowSaveAsDialog Sample.blank None) = [] /\
  submitted (effectsOf Sample.heimer Sample.dismissing ShowOpenDialog Sample.blank None) = [].
Proof. repeat split; reflexivity. Qed.

(** Against C8 as stated: [--help] after [--lang] is taken as the
    language, and parsing returns. *)
Lemma C8_help_taken_as_language :
  existsb isHelp ["heimer"; "--lang"; "--help"] = true /\
  parseArgs Sample.heimer Sample.platform ["heimer"; "--lang"; "--help"] =
  Returned {| mindMapFile := EmptyString;
              requestedLang := "--help";
              translation := None;
              console := [Log LogWarning "Failed to load translations for --help"] |}.
Proof. split; reflexivity. Qed.


(** C1 on a concrete input. Dismissing the colour dialog still submits [BackgroundColorChanged]. *)
Lemma C1_witness :
  Qt.isValid (getColor Sample.dismissing Qt.white) = false /\
  submitted (effectsOf Sample.heimer Sample.dismissing ShowBackgroundColorDialog
               Sample.blank None) = [BackgroundColorChanged] /\
  mediatorAfter Sample.heimer Sample.dismissing ShowBackgroundColorDialog
    Sample.blank None = Sample.blank.
Proof.
  split; [reflexivity|].
  apply (C1_actions_per_state Sample.heimer Sample.dismissing Sample.blank None).
  reflexivity.
Defined.

(** C3 on a concrete input. A confirmed save-as on storage that cannot be written. *)
Lemma C3_witness :
  QStr.isEmpty (askSaveFileName Sample.heimer Sample.confirming) = false /\
  submitted (effectsOf Sample.heimer Sample.confirming ShowSaveAsDialog
               (Sample.blankOn Sample.readOnly) None) = [MindMapSaveAsFailed] /\
  messages (effectsOf Sample.heimer Sample.confirming ShowSaveAsDialog
              (Sample.blankOn Sample.readOnly) None) =
    ["Failed to save file as '/home/user/plan.alz'."] /\
  mediatorAfter Sample.heimer Sample.confirming ShowSaveAsDialog
    (Sample.blankOn Sample.readOnly) None = Sample.blankOn Sample.readOnly.
Proof.
  split; [reflexivity|].
  destruct (C3_save_failure_recovered Sample.heimer Sample.confirming
              (Sample.blankOn Sample.readOnly) None) as (_ & _ & Hsaveas & _).
  exact (Hsaveas eq_refl).
Defined.

(** C4 on a concrete input. The command line [heimer --help], and runs of [Exit] and [SaveMindMap]. *)
Lemma C4_witness :
  size ["heimer"; "--help"] <= INT_MAX /\
  exits (effectsOf Sample.heimer Sample.confirming Exit Sample.blank None) = [Qt.EXIT_SUCCESS] /\
  exits (effectsOf Sample.heimer Sample.confirming SaveMindMap
           (Sample.blankOn Sample.readOnly) None) = [] /\
  existsb isHelp (tail ["heimer"; "--help"]) = true.
Proof.
  assert (Hmax : size ["heimer"; "--help"] <= INT_MAX) by (unfold size, INT_MAX; simpl; lia).
  split; [exact Hmax|].
  destruct (C4_exit_only_deliberate Sample.heimer Sample.confirming Sample.platform
              Sample.blank None ["heimer"; "--help"] Hmax) as (Hexit & _ & Hthrown).
  destruct (C4_exit_only_deliberate Sample.heimer Sample.confirming Sample.platform
              (Sample.blankOn Sample.readOnly) None ["heimer"; "--help"] Hmax)
    as (Hstay & _ & _).
  split; [exact (Hexit Exit)|]. split; [exact (Hstay SaveMindMap)|].
  apply (Hthrown (printHelp Sample.heimer) helpException). reflexivity.
Defined.



(** C8 on a concrete input. The command line
    [heimer --lang fi plan.alz --help]. *)
Lemma C8_witness :
  size ["heimer"; "--lang"; "fi"; "plan.alz"; "--help"] <= INT_MAX /\
  helpAfterLang (tail ["heimer"; "--lang"; "fi"; "plan.alz"; "--help"]) = false /\
  existsb isHelp (tail ["heimer"; "--lang"; "fi"; "plan.alz"; "--help"]) = true /\
  parseArgs Sample.heimer Sample.platform ["heimer"; "--lang"; "fi"; "plan.alz"; "--help"] =
  Thrown (printHelp Sample.heimer) helpException.
Proof.
  assert (Hmax : size ["heimer"; "--lang"; "fi"; "plan.alz"; "--help"] <= INT_MAX)
    by (unfold size, INT_MAX; simpl; lia).
  split; [exact Hmax|]. split; [reflexivity|]. split; [reflexivity|].
  destruct (C8_help_raises Sample.heimer Sample.platform
              ["heimer"; "--lang"; "fi"; "plan.alz"; "--help"] Hmax) as (_ & _ & _ & Hiff).
  exact (proj2 (Hiff eq_refl) eq_refl).
Defined.

(** C9 on a concrete input. A chosen name without the extension. *)
Lemma C9_witness :
  QStr.isEmpty (askSaveFileName Sample.heimer Sample.confirming) = false /\
  calls (effectsOf Sample.heimer Sample.confirming ShowSaveAsDialog Sample.blank None) =
  [CallSaveMindMapAs "/home/user/plan.alz"].
Proof.
  split; [reflexivity|].
  apply (C9_save_as_extension Sample.heimer Sample.confirming Sample.blank None).
  reflexivity.
Defined.

(** [lang_honoured_in_first_half] on the command line
    [heimer a.alz b.alz --lang fi c.alz d.alz], where [--lang] is at index 3
    of 7. *)
Lemma lang_honoured_in_first_half_witness :
  size ("heimer" :: ["a.alz"; "b.alz"] ++ "--lang" :: "fi" :: ["c.alz"; "d.alz"]) <= INT_MAX /\
  existsb isOption (["a.alz"; "b.alz"] ++ "fi" :: ["c.alz"; "d.alz"]) = false /\
  exists r,
    parseArgs Sample.heimer Sample.platform
      ("heimer" :: ["a.alz"; "b.alz"] ++ "--lang" :: "fi" :: ["c.alz"; "d.alz"]) = Returned r /\
    requestedLang r = "fi" /\ mindMapFile r = "d.alz".
Proof.
  assert (Hmax : size ("heimer" :: ["a.alz"; "b.alz"] ++ "--lang" :: "fi" :: ["c.alz"; "d.alz"])
                 <= INT_MAX) by (unfold size, INT_MAX; simpl; lia).
  split; [exact Hmax|]. split; [reflexivity|].
  exact (lang_honoured_in_first_half Sample.heimer Sample.platform "heimer" "fi"
           ["a.alz"; "b.alz"] ["c.alz"; "d.alz"] Hmax eq_refl).
Defined.

(** [parseArgs_ignores_program_name] on [heimer] and [./heimer]. *)
Lemma parseArgs_ignores_program_name_witness :
  size ["heimer"; "--lang"; "fi"; "plan.alz"] <= INT_MAX /\
  parseArgs Sample.heimer Sample.platform ["heimer"; "--lang"; "fi"; "plan.alz"] =
  parseArgs Sample.heimer Sample.platform ["./heimer"; "--lang"; "fi"; "plan.alz"].
Proof.
  assert (Hmax : size ["heimer"; "--lang"; "fi"; "plan.alz"] <= INT_MAX)
    by (unfold size, INT_MAX; simpl; lia).
  split; [exact Hmax|].
  exact (parseArgs_ignores_program_name Sample.heimer Sample.platform
           "heimer" "./heimer" ["--lang"; "fi"; "plan.alz"] Hmax).
Defined.

(** [help_stops_the_scan] on [heimer plan.alz -h --lang]. *)
Lemma help_stops_the_scan_witness :
  size ("heimer" :: ["plan.alz"] ++ "-h" :: ["--lang"]) <= INT_MAX /\
  existsb isOption ["plan.alz"] = false /\ isHelp "-h" = true /\
  parseArgs Sample.heimer Sample.platform ("heimer" :: ["plan.alz"] ++ "-h" :: ["--lang"]) =
  Thrown (printHelp Sample.heimer) helpException.
Proof.
  assert (Hmax : size ("heimer" :: ["plan.alz"] ++ "-h" :: ["--lang"]) <= INT_MAX)
    by (unfold size, INT_MAX; simpl; lia).
  split; [exact Hmax|]. split; [reflexivity|]. split; [reflexivity|].
  exact (help_stops_the_scan Sample.heimer Sample.platform "heimer" "-h"
           ["plan.alz"] ["--lang"] Hmax eq_refl eq_refl).
Defined.

(** [lang_value_not_examined] on [heimer --lang --lang plan.alz]. *)
Lemma lang_value_not_examined_witness :
  size ["heimer"; "--lang"; "--lang"; "plan.alz"] <= INT_MAX /\
  existsb isOption ["plan.alz"] = false /\
  exists r,
    parseArgs Sample.heimer Sample.platform ["heimer"; "--lang"; "--lang"; "plan.alz"] =
    Returned r /\
    requestedLang r = "--lang" /\ mindMapFile r = "plan.alz".
Proof.
  assert (Hmax : size ["heimer"; "--lang"; "--lang"; "plan.alz"] <= INT_MAX)
    by (unfold size, INT_MAX; simpl; lia).
  split; [exact Hmax|]. split; [reflexivity|].
  exact (lang_value_not_examined Sample.heimer Sample.platform "heimer" "--lang"
           ["plan.alz"] Hmax eq_refl).
Defined.

(** [empty_lang_is_no_lang] on [heimer --lang '' plan.alz]. *)
Lemma empty_lang_is_no_lang_witness :
  size ["heimer"; "--lang"; EmptyString; "plan.alz"] <= INT_MAX /\
  existsb isOption ["plan.alz"] = false /\
  parseArgs Sample.heimer Sample.platform ["heimer"; "--lang"; EmptyString; "plan.alz"] =
  parseArgs Sample.heimer Sample.platform ["heimer"; "plan.alz"].
Proof.
  assert (Hmax : size ["heimer"; "--lang"; EmptyString; "plan.alz"] <= INT_MAX)
    by (unfold size, INT_MAX; simpl; lia).
  split; [exact Hmax|]. split; [reflexivity|].
  exact (empty_lang_is_no_lang Sample.heimer Sample.platform "heimer" ["plan.alz"]
           Hmax eq_refl).
Defined.

(** [parse_results_are_arguments] on [heimer --lang fi plan.alz]. *)
Lemma parse_results_are_arguments_witness :
  let args := ["heimer"; "--lang"; "fi"; "plan.alz"] in
  let r := {| mindMapFile := "plan.alz"; requestedLang := "fi"; translation := Some "fi";
              console := [Log LogInfo "Loaded translations for fi"] |} in
  size args <= INT_MAX /\
  parseArgs Sample.heimer Sample.platform args = Returned r /\
  (mindMapFile r = EmptyString \/ mindMapFile r ∈ tail args) /\
  (requestedLang r = EmptyString \/ requestedLang r ∈ tail args).
Proof.
  intros args r.
  assert (Hmax : size args <= INT_MAX) by (unfold size, INT_MAX; simpl; lia).
  split; [exact Hmax|]. split; [reflexivity|].
  exact (parse_results_are_arguments Sample.heimer Sample.platform args r Hmax eq_refl).
Defined.

(** [recent_path_only_after_open] on an open that succeeds. *)
Lemma recent_path_only_after_open_witness :
  submitted (effectsOf Sample.heimer Sample.confirming ShowOpenDialog Sample.blank None) =
    [MindMapOpened] /\
  Startup.recentAfter Sample.heimer Sample.confirming ShowOpenDialog Sample.blank None =
    Some "/home/user/plan.alz".
Proof.
  split; [reflexivity|].
  exact (proj1 (recent_path_only_after_open Sample.heimer Sample.confirming
                  ShowOpenDialog Sample.blank None) eq_refl).
Defined.

(** [dialogs_start_paths] on two opens in a row. *)
Lemma dialogs_start_paths_witness :
  submitted (effectsOf Sample.heimer Sample.confirming ShowOpenDialog Sample.blank None) =
    [MindMapOpened] /\
  calls (effectsOf Sample.heimer Sample.confirming ShowOpenDialog
           (Sample.blankOn Sample.readOnly)
           (Startup.recentAfter Sample.heimer Sample.confirming ShowOpenDialog
              Sample.blank None)) =
    [CallOpenMindMap "/home/user/plan.alz"].
Proof.
  split; [reflexivity|].
  exact (proj2 (dialogs_start_paths Sample.heimer Sample.confirming Sample.blank
                  (Sample.blankOn Sample.readOnly) None) eq_refl).
Defined.

(** [action_is_last_effect] on a save that fails. *)
Lemma action_is_last_effect_witness :
  MindMapSaveFailed ∈
    submitted (effectsOf Sample.heimer Sample.confirming SaveMindMap
                 (Sample.blankOn Sample.readOnly) None) /\
  last (effectsOf Sample.heimer Sample.confirming SaveMindMap
          (Sample.blankOn Sample.readOnly) None) = Some (ActionTriggered MindMapSaveFailed).
Proof.
  assert (Hin : MindMapSaveFailed ∈
                submitted (effectsOf Sample.heimer Sample.confirming SaveMindMap
                             (Sample.blankOn Sample.readOnly) None))
    by (apply list_elem_of_singleton; reflexivity).
  split; [exact Hin|].
  exact (action_is_last_effect Sample.heimer Sample.confirming SaveMindMap
           (Sample.blankOn Sample.readOnly) None MindMapSaveFailed Hin).
Defined.

(** [action_tells_state] on an export. *)
Lemma action_tells_state_witness :
  ExportedToPNG ∈
    submitted (effectsOf Sample.heimer Sample.confirming ShowExportToPNGDialog
                 Sample.blank None) /\
  Startup.submitter ExportedToPNG = Some ShowExportToPNGDialog.
Proof.
  assert (Hin : ExportedToPNG ∈
                submitted (effectsOf Sample.heimer Sample.confirming ShowExportToPNGDialog
                             Sample.blank None))
    by (apply list_elem_of_singleton; reflexivity).
  split; [exact Hin|].
  exact (action_tells_state Sample.heimer Sample.confirming ShowExportToPNGDialog
           Sample.blank None ExportedToPNG Hin).
Defined.

(** [startup_opens_last_argument] on [heimer --lang fi plan.alz]. *)
Lemma startup_opens_last_argument_witness :
  size ("heimer" :: ["--lang"; "fi"] ++ ["plan.alz"]) <= INT_MAX /\
  existsb isHelp (["--lang"; "fi"] ++ ["plan.alz"]) = false /\
  last ["--lang"; "fi"] <> Some "--lang" /\
  exists r,
    parseArgs Sample.heimer Sample.platform ("heimer" :: ["--lang"; "fi"] ++ ["plan.alz"]) =
    Returned r /\
    calls (effects (snd (Startup.scheduled (mindMapFile r) (start Sample.blank None)))) =
    [CallOpenMindMap "plan.alz"] /\
    submitted (effects (snd (Startup.scheduled (mindMapFile r) (start Sample.blank None)))) =
    [MindMapOpened] /\
    messages (effects (snd (Startup.scheduled (mindMapFile r) (start Sample.blank None)))) = [].
Proof.
  assert (Hmax : size ("heimer" :: ["--lang"; "fi"] ++ ["plan.alz"]) <= INT_MAX)
    by (unfold size, INT_MAX; simpl; lia).
  assert (Hlast : last ["--lang"; "fi"] <> Some "--lang") by (simpl; discriminate).
  split; [exact Hmax|]. split; [reflexivity|]. split; [exact Hlast|].
  exact (startup_opens_last_argument Sample.heimer Sample.platform "heimer" "plan.alz"
           ["--lang"; "fi"] Sample.blank None Hmax eq_refl Hlast).
Defined.

End Evaluations.
